(** * Order / payment reconciliation of the marketplace backend

    A shallow embedding of the order and payment controllers
    (controllers/orders, controllers/payments, the order-status action of
    controllers/admin), of the routes that mount them, and of the catalog
    side they rest on (the product schema and the queries, creation and
    deletion of controllers/products).

    Conventions.
    - A Mongo collection is a list of documents in natural (insertion)
      order: [findOne]-style queries return the first match.
    - JS numbers are integers here ([Z]): prices, quantities, amounts and
      clock readings ([Date.now()]).  Every evaluation below uses small
      integers, on which JS number arithmetic is exact.
    - [next(new ErrorResponse(msg, code))] and a rejected promise caught by
      the async wrapper are both the response [Next _]; the error
      middleware is outside the modelled files.
    - [createdAt], [updatedAt] and the version key are managed by the
      schema, never by a controller, and are not part of the document
      model. *)

From Stdlib Require Import ZArith List String Bool Lia.
From Stdlib Require Import QArith Sorted Permutation.
Import ListNotations.
Open Scope string_scope.
Open Scope Z_scope.

Definition ObjectId := string.

(** ** Documents *)

Module User.
(** [req.user], as the authentication middleware supplies it. *)
Record t := { id : ObjectId; email : string; role : string }.
End User.

Module Product.
(** The fields of the product schema that the order code reads
    (populate selects [name price]). *)
Record t := { _id : ObjectId; name : string; price : Z }.

Fixpoint findById (products : list t) (i : ObjectId) : option t :=
  match products with
  | [] => None
  | p :: rest => if String.eqb (_id p) i then Some p else findById rest i
  end.
End Product.

Module OrderItem.
Record t := { product : ObjectId; quantity : Z; price : Z }.
End OrderItem.

Module PaymentResult.
Record t := {
  id : string;
  status : string;
  update_time : Z;
  email_address : string
}.
End PaymentResult.

(** Modelled from the spec: the status enumeration of the Order schema
    (models/Order is not among the source files).  These are the states of
    spec section 3; the literal ['delivered'] of the controllers is
    [Delivered]. *)
Inductive Status :=
| Created | AwaitingPayment | Paid | Processing | Delivered | Cancelled.

Definition Status_eqb (a b : Status) : bool :=
  match a, b with
  | Created, Created | AwaitingPayment, AwaitingPayment | Paid, Paid
  | Processing, Processing | Delivered, Delivered | Cancelled, Cancelled => true
  | _, _ => false
  end.

Module Order.
(** The paths of an order document that the controllers read or write. *)
Record t := {
  _id : ObjectId;
  user : ObjectId;
  items : list OrderItem.t;
  shippingAddress : string;
  paymentMethod : string;
  taxPrice : Z;
  shippingPrice : Z;
  totalPrice : Z;
  isPaid : bool;
  paidAt : option Z;
  paymentResult : option PaymentResult.t;
  isDelivered : bool;
  deliveredAt : option Z;
  status : Status
}.

(** [order.isPaid = true; order.paidAt = now; order.paymentResult = pr] *)
Definition markPaid (now : Z) (pr : PaymentResult.t) (o : t) : t :=
  {| _id := _id o; user := user o; items := items o;
     shippingAddress := shippingAddress o; paymentMethod := paymentMethod o;
     taxPrice := taxPrice o; shippingPrice := shippingPrice o;
     totalPrice := totalPrice o;
     isPaid := true; paidAt := Some now; paymentResult := Some pr;
     isDelivered := isDelivered o; deliveredAt := deliveredAt o;
     status := status o |}.

(** [order.status = s] *)
Definition setStatus (s : Status) (o : t) : t :=
  {| _id := _id o; user := user o; items := items o;
     shippingAddress := shippingAddress o; paymentMethod := paymentMethod o;
     taxPrice := taxPrice o; shippingPrice := shippingPrice o;
     totalPrice := totalPrice o;
     isPaid := isPaid o; paidAt := paidAt o; paymentResult := paymentResult o;
     isDelivered := isDelivered o; deliveredAt := deliveredAt o;
     status := s |}.

(** [order.isDelivered = true; order.deliveredAt = now] *)
Definition markDelivered (now : Z) (o : t) : t :=
  {| _id := _id o; user := user o; items := items o;
     shippingAddress := shippingAddress o; paymentMethod := paymentMethod o;
     taxPrice := taxPrice o; shippingPrice := shippingPrice o;
     totalPrice := totalPrice o;
     isPaid := isPaid o; paidAt := paidAt o; paymentResult := paymentResult o;
     isDelivered := true; deliveredAt := Some now;
     status := status o |}.

(** The update document of the webhook:
    [{isPaid: true, paidAt: now, 'paymentResult.status': st}]. *)
Definition setPaidStatus (now : Z) (st : string) (o : t) : t :=
  {| _id := _id o; user := user o; items := items o;
     shippingAddress := shippingAddress o; paymentMethod := paymentMethod o;
     taxPrice := taxPrice o; shippingPrice := shippingPrice o;
     totalPrice := totalPrice o;
     isPaid := true; paidAt := Some now;
     paymentResult :=
       match paymentResult o with
       | Some pr =>
           Some {| PaymentResult.id := PaymentResult.id pr;
                   PaymentResult.status := st;
                   PaymentResult.update_time := PaymentResult.update_time pr;
                   PaymentResult.email_address := PaymentResult.email_address pr |}
       | None =>
           (* not reached through the webhook's filter, which needs a
              stored [paymentResult.id] *)
           None
       end;
     isDelivered := isDelivered o; deliveredAt := deliveredAt o;
     status := status o |}.

Fixpoint findById (orders : list t) (i : ObjectId) : option t :=
  match orders with
  | [] => None
  | o :: rest => if String.eqb (_id o) i then Some o else findById rest i
  end.

(** The write of one document selected by a filter: the first document
    that matches is replaced by its update, the others are untouched.
    The boolean tells whether a document matched (a write happened). *)
Fixpoint updateOne (filter : t -> bool) (update : t -> t) (orders : list t)
  : list t * bool :=
  match orders with
  | [] => ([], false)
  | o :: rest =>
      if filter o then (update o :: rest, true)
      else let (rest', w) := updateOne filter update rest in (o :: rest', w)
  end.

Definition byId (i : ObjectId) (o : t) : bool := String.eqb (_id o) i.

(** [order.save()] of a loaded document after the assignments [modified]:
    the modified paths are written onto the stored document of that
    [_id]. *)
Definition save (i : ObjectId) (modified : t -> t) (orders : list t)
  : list t * bool :=
  updateOne (byId i) modified orders.

(** The filter [{'paymentResult.id': pid}]. *)
Definition byPaymentResultId (pid : string) (o : t) : bool :=
  match paymentResult o with
  | Some pr => String.eqb (PaymentResult.id pr) pid
  | None => false
  end.
End Order.

(** ** Responses *)

Inductive Error :=
| ErrorResponse (message : string) (statusCode : Z)
| Thrown (name : string).

Inductive Body :=
| Data (o : Order.t)              (* {success: true, data: order} *)
| ClientSecret (secret : string)  (* {success: true, clientSecret} *)
| Received                        (* {received: true} *)
| Text (s : string).              (* res.send(string) *)

Inductive Response :=
| Res (status : Z) (body : Body)
| Next (e : Error).

(** ** The payment gateway client *)

Module PaymentIntent.
(** The fields of a Stripe payment intent that the controllers read, and
    its [amount] (in cents), which they never read. *)
Record t := {
  id : string;
  status : string;
  created : Z;
  amount : Z;
  client_secret : string
}.
End PaymentIntent.

Module Event.
(** A verified webhook event; [object] is [event.data.object]. *)
Record t := { type : string; object : PaymentIntent.t }.
End Event.

Module Stripe.
(** The argument of [stripe.paymentIntents.create]. *)
Record CreateParams := {
  amount : Z;
  currency : string;
  metadata : list (string * string)
}.

(** The client.  A call either throws ([inl], with the error's message)
    or returns ([inr]). *)
Record t := {
  paymentIntents_create : CreateParams -> string + PaymentIntent.t;
  paymentIntents_retrieve : string -> string + PaymentIntent.t;
  webhooks_constructEvent :
    string -> option string -> option string -> string + Event.t
}.
End Stripe.

(** ** Routes (routes/orders, routes/payments, routes/admin) *)

Inductive Middleware := protect | authorize (role : string).

Inductive Route :=
| POST_orders                          (* createOrder *)
| PUT_orders_id                        (* updateOrder *)
| PUT_orders_id_pay                    (* updateOrderToPaid *)
| PUT_orders_id_deliver                (* updateOrderToDelivered *)
| POST_payments_create_payment_intent  (* createPaymentIntent *)
| PUT_payments_confirm_payment         (* confirmPayment *)
| POST_payments_webhook                (* webhook *)
| PUT_admin_orders_id_status.          (* updateOrderStatus *)

Definition middleware (r : Route) : list Middleware :=
  match r with
  | POST_orders => [protect]
  | PUT_orders_id => [protect]
  | PUT_orders_id_pay => [protect]
  | PUT_orders_id_deliver => [protect; authorize "admin"]
  | POST_payments_create_payment_intent => [protect]
  | PUT_payments_confirm_payment => [protect]
  | POST_payments_webhook => []
  | PUT_admin_orders_id_status => [protect; authorize "admin"]
  end.

(** ** controllers/orders *)

Definition notFound (what : string) (i : ObjectId) : Response :=
  Next (ErrorResponse (what ++ " not found with id of " ++ i) 404).

Definition notAuthorizedTo (verb : string) (u : User.t) : Response :=
  Next (ErrorResponse
          ("User " ++ User.id u ++ " is not authorized to " ++ verb ++ " this order")
          401).

(** The owner-or-admin test of the order controllers, as the source writes
    it: [order.user.toString() !== req.user.id && req.user.role !== 'admin']
    refuses. *)
Definition ownerOrAdmin (o : Order.t) (u : User.t) : bool :=
  String.eqb (Order.user o) (User.id u) || String.eqb (User.role u) "admin".

Module CreateOrderBody.
Record item := { product : ObjectId; quantity : Z }.
(** The body of POST /orders; a path the request leaves out is [None]. *)
Record t := {
  items : option (list item);
  shippingAddress : string;
  paymentMethod : string;
  taxPrice : option Z;
  shippingPrice : option Z
}.
End CreateOrderBody.


Module PayBody.
(** The body of PUT /orders/:id/pay; [payer] is [req.body.payer]. *)
Record t := {
  id : string;
  status : string;
  update_time : Z;
  payer : option string   (* payer.email_address *)
}.
End PayBody.

(** [updateOrderToPaid] *)
Definition updateOrderToPaid (user : User.t) (i : ObjectId) (body : PayBody.t)
    (now : Z) (orders : list Order.t) : list Order.t * Response :=
  match Order.findById orders i with
  | None => (orders, notFound "Order" i)
  | Some order =>
      if negb (ownerOrAdmin order user) then (orders, notAuthorizedTo "update" user)
      else
        match PayBody.payer body with
        | None => (orders, Next (Thrown "TypeError"))
        | Some email =>
            let pr := {| PaymentResult.id := PayBody.id body;
                         PaymentResult.status := PayBody.status body;
                         PaymentResult.update_time := PayBody.update_time body;
                         PaymentResult.email_address := email |} in
            let updatedOrder := Order.markPaid now pr order in
            (fst (Order.save (Order._id order) (Order.markPaid now pr) orders),
             Res 200 (Data updatedOrder))
        end
  end.

(** [updateOrderToDelivered] *)
Definition updateOrderToDelivered (i : ObjectId) (now : Z)
    (orders : list Order.t) : list Order.t * Response :=
  match Order.findById orders i with
  | None => (orders, notFound "Order" i)
  | Some order =>
      let modified o := Order.setStatus Delivered (Order.markDelivered now o) in
      (fst (Order.save (Order._id order) modified orders),
       Res 200 (Data (modified order)))
  end.

Module UpdateBody.
(** The body of PUT /orders/:id: any subset of the order's paths. *)
Record t := {
  user : option ObjectId;
  items : option (list OrderItem.t);
  shippingAddress : option string;
  paymentMethod : option string;
  taxPrice : option Z;
  shippingPrice : option Z;
  totalPrice : option Z;
  isPaid : option bool;
  paidAt : option Z;
  paymentResult : option PaymentResult.t;
  isDelivered : option bool;
  deliveredAt : option Z;
  status : option Status
}.

Definition or {A} (field : option A) (old : A) : A :=
  match field with Some v => v | None => old end.

Definition orSome {A} (field : option A) (old : option A) : option A :=
  match field with Some v => Some v | None => old end.

(** The update [body] applied to a stored document: every path present in
    the body takes the body's value. *)
Definition assign (body : t) (o : Order.t) : Order.t :=
  {| Order._id := Order._id o;
     Order.user := or (user body) (Order.user o);
     Order.items := or (items body) (Order.items o);
     Order.shippingAddress := or (shippingAddress body) (Order.shippingAddress o);
     Order.paymentMethod := or (paymentMethod body) (Order.paymentMethod o);
     Order.taxPrice := or (taxPrice body) (Order.taxPrice o);
     Order.shippingPrice := or (shippingPrice body) (Order.shippingPrice o);
     Order.totalPrice := or (totalPrice body) (Order.totalPrice o);
     Order.isPaid := or (isPaid body) (Order.isPaid o);
     Order.paidAt := orSome (paidAt body) (Order.paidAt o);
     Order.paymentResult := orSome (paymentResult body) (Order.paymentResult o);
     Order.isDelivered := or (isDelivered body) (Order.isDelivered o);
     Order.deliveredAt := orSome (deliveredAt body) (Order.deliveredAt o);
     Order.status := or (status body) (Order.status o) |}.
End UpdateBody.

(** [updateOrder].  [validators] are the schema's update validators
    ([runValidators: true]); the schema is not among the source files, so
    they are a parameter. *)
Definition updateOrder (validators : UpdateBody.t -> bool)
    (user : User.t) (i : ObjectId) (body : UpdateBody.t)
    (orders : list Order.t) : list Order.t * Response :=
  match Order.findById orders i with
  | None => (orders, notFound "Order" i)
  | Some order =>
      if negb (ownerOrAdmin order user) then (orders, notAuthorizedTo "update" user)
      else if negb (validators body) then (orders, Next (Thrown "ValidationError"))
      else
        (fst (Order.updateOne (Order.byId i) (UpdateBody.assign body) orders),
         Res 200 (Data (UpdateBody.assign body order)))
  end.

(** ** controllers/admin *)

(** [updateOrderStatus] *)
Definition updateOrderStatus (i : ObjectId) (status : Status) (now : Z)
    (orders : list Order.t) : list Order.t * Response :=
  match Order.findById orders i with
  | None => (orders, notFound "Order" i)
  | Some order =>
      let modified o :=
        let o := Order.setStatus status o in
        if Status_eqb status Delivered then Order.markDelivered now o else o in
      (fst (Order.save (Order._id order) modified orders),
       Res 200 (Data (modified order)))
  end.

(** ** controllers/payments *)

(** The reduce of [createPaymentIntent] over the populated items:
    [total + item.product.price * item.quantity], where [item.product] is
    the catalog document the item refers to at the time of the call.
    [None] is the TypeError of reading [price] of a product that no longer
    exists (populate leaves null). *)
Fixpoint reduceTotal (products : list Product.t) (items : list OrderItem.t)
    (total : Z) : option Z :=
  match items with
  | [] => Some total
  | item :: rest =>
      match Product.findById products (OrderItem.product item) with
      | None => None
      | Some product =>
          reduceTotal products rest
            (total + Product.price product * OrderItem.quantity item)
      end
  end.

(** [createPaymentIntent].  The result lists the calls made to
    [stripe.paymentIntents.create], with their argument. *)
Definition createPaymentIntent (stripe : Stripe.t) (user : User.t)
    (orderId : ObjectId) (products : list Product.t) (orders : list Order.t)
  : list Stripe.CreateParams * Response :=
  match Order.findById orders orderId with
  | None => ([], notFound "Order" orderId)
  | Some order =>
      if negb (String.eqb (Order.user order) (User.id user)) then
        ([], Next (ErrorResponse "Not authorized to pay for this order" 401))
      else if Order.isPaid order then
        ([], Next (ErrorResponse "Order already paid" 400))
      else
        match reduceTotal products (Order.items order) 0 with
        | None => ([], Next (Thrown "TypeError"))
        | Some totalAmount =>
            let params :=
              {| Stripe.amount := totalAmount * 100;
                 Stripe.currency := "usd";
                 Stripe.metadata := [("integration_check", "accept_a_payment")] |} in
            match Stripe.paymentIntents_create stripe params with
            | inl message => ([params], Next (Thrown message))
            | inr paymentIntent =>
                ([params],
                 Res 200 (ClientSecret (PaymentIntent.client_secret paymentIntent)))
            end
        end
  end.

(** [confirmPayment], in the three parts that its awaits separate: the
    load and ownership check, the verification with the gateway, and the
    assignments and save. *)
Definition confirmLoad (user : User.t) (orderId : ObjectId)
    (orders : list Order.t) : Response + Order.t :=
  match Order.findById orders orderId with
  | None => inl (notFound "Order" orderId)
  | Some order =>
      if negb (String.eqb (Order.user order) (User.id user)) then
        inl (Next (ErrorResponse "Not authorized to update this order" 401))
      else inr order
  end.

Definition confirmVerify (stripe : Stripe.t) (paymentId : string)
  : Response + PaymentIntent.t :=
  match Stripe.paymentIntents_retrieve stripe paymentId with
  | inl message => inl (Next (Thrown message))
  | inr paymentIntent =>
      if negb (String.eqb (PaymentIntent.status paymentIntent) "succeeded") then
        inl (Next (ErrorResponse "Payment not successful" 400))
      else inr paymentIntent
  end.

Definition confirmResult (user : User.t) (paymentIntent : PaymentIntent.t)
  : PaymentResult.t :=
  {| PaymentResult.id := PaymentIntent.id paymentIntent;
     PaymentResult.status := PaymentIntent.status paymentIntent;
     PaymentResult.update_time := PaymentIntent.created paymentIntent;
     PaymentResult.email_address := User.email user |}.

Definition confirmWrite (user : User.t) (order : Order.t)
    (paymentIntent : PaymentIntent.t) (now : Z) (orders : list Order.t)
  : list Order.t * bool :=
  Order.save (Order._id order)
    (Order.markPaid now (confirmResult user paymentIntent)) orders.

Definition confirmSave (user : User.t) (order : Order.t)
    (paymentIntent : PaymentIntent.t) (now : Z) (orders : list Order.t)
  : list Order.t * Response :=
  (fst (confirmWrite user order paymentIntent now orders),
   Res 200 (Data (Order.markPaid now (confirmResult user paymentIntent) order))).

Definition confirmPayment (stripe : Stripe.t) (user : User.t)
    (orderId : ObjectId) (paymentId : string) (now : Z)
    (orders : list Order.t) : list Order.t * Response :=
  match confirmLoad user orderId orders with
  | inl response => (orders, response)
  | inr order =>
      match confirmVerify stripe paymentId with
      | inl response => (orders, response)
      | inr paymentIntent => confirmSave user order paymentIntent now orders
      end
  end.

Module WebhookRequest.
(** The raw body and the [stripe-signature] header. *)
Record t := { body : string; stripe_signature : option string }.
End WebhookRequest.

(** The [switch] of [webhook]: the success case is one
    [findOneAndUpdate]; the failure case and the default only log. *)
Definition webhookWrite (event : Event.t) (now : Z) (orders : list Order.t)
  : list Order.t * bool :=
  if String.eqb (Event.type event) "payment_intent.succeeded" then
    let paymentIntent := Event.object event in
    Order.updateOne
      (Order.byPaymentResultId (PaymentIntent.id paymentIntent))
      (Order.setPaidStatus now (PaymentIntent.status paymentIntent))
      orders
  else (orders, false).

(** [webhook].  [secret] is [process.env.STRIPE_WEBHOOK_SECRET]. *)
Definition webhook (stripe : Stripe.t) (secret : option string)
    (req : WebhookRequest.t) (now : Z) (orders : list Order.t)
  : list Order.t * Response :=
  match Stripe.webhooks_constructEvent stripe (WebhookRequest.body req)
          (WebhookRequest.stripe_signature req) secret with
  | inl message => (orders, Res 400 (Text ("Webhook Error: " ++ message)))
  | inr event => (fst (webhookWrite event now orders), Res 200 Received)
  end.

(** ** A confirm call racing a webhook delivery

    Requests run concurrently and yield only at their awaits.  The webhook
    touches the collection in one atomic [findOneAndUpdate];
    [confirmPayment] touches it twice, at its load and at its save, and
    calls the gateway in between.  So the webhook's write falls before the
    load, between the load and the save, or after the save. *)

Inductive Schedule := WebhookFirst | WebhookBetween | WebhookLast.

Inductive Writer := ByConfirm | ByWebhook.

Module Race.
(** The outcome of a race: the collection, both responses, and the writes
    that reached a document, in order, each with the [paidAt] it set. *)
Record t := {
  orders : list Order.t;
  confirmResponse : Response;
  webhookResponse : Response;
  writes : list (Writer * Z)
}.
End Race.

Definition wrote (w : Writer) (now : Z) (r : list Order.t * bool)
  : list (Writer * Z) :=
  if snd r then [(w, now)] else [].

Definition webhookOp (stripe : Stripe.t) (secret : option string)
    (req : WebhookRequest.t) (now : Z) (orders : list Order.t)
  : list Order.t * list (Writer * Z) * Response :=
  match Stripe.webhooks_constructEvent stripe (WebhookRequest.body req)
          (WebhookRequest.stripe_signature req) secret with
  | inl message => (orders, [], Res 400 (Text ("Webhook Error: " ++ message)))
  | inr event =>
      let r := webhookWrite event now orders in
      (fst r, wrote ByWebhook now r, Res 200 Received)
  end.

(** [confirmPayment] from its load onwards, against the collection as it is
    when the save runs. *)
Definition confirmFrom (loaded : Response + Order.t) (stripe : Stripe.t)
    (user : User.t) (paymentId : string) (now : Z) (orders : list Order.t)
  : list Order.t * list (Writer * Z) * Response :=
  match loaded with
  | inl response => (orders, [], response)
  | inr order =>
      match confirmVerify stripe paymentId with
      | inl response => (orders, [], response)
      | inr paymentIntent =>
          let r := confirmWrite user order paymentIntent now orders in
          (fst r, wrote ByConfirm now r, snd (confirmSave user order paymentIntent now orders))
      end
  end.

(** The race under a schedule; [tc] and [tw] are the clock readings of the
    confirm call and of the webhook. *)
Definition race (s : Schedule) (stripe : Stripe.t) (secret : option string)
    (user : User.t) (orderId : ObjectId) (paymentId : string)
    (req : WebhookRequest.t) (tc tw : Z) (orders : list Order.t) : Race.t :=
  match s with
  | WebhookFirst =>
      let '(db1, w1, rw) := webhookOp stripe secret req tw orders in
      let '(db2, w2, rc) :=
        confirmFrom (confirmLoad user orderId db1) stripe user paymentId tc db1 in
      {| Race.orders := db2; Race.confirmResponse := rc;
         Race.webhookResponse := rw; Race.writes := (w1 ++ w2)%list |}
  | WebhookBetween =>
      let loaded := confirmLoad user orderId orders in
      let '(db1, w1, rw) := webhookOp stripe secret req tw orders in
      let '(db2, w2, rc) := confirmFrom loaded stripe user paymentId tc db1 in
      {| Race.orders := db2; Race.confirmResponse := rc;
         Race.webhookResponse := rw; Race.writes := (w1 ++ w2)%list |}
  | WebhookLast =>
      let '(db1, w1, rc) :=
        confirmFrom (confirmLoad user orderId orders) stripe user paymentId tc orders in
      let '(db2, w2, rw) := webhookOp stripe secret req tw db1 in
      {| Race.orders := db2; Race.confirmResponse := rc;
         Race.webhookResponse := rw; Race.writes := (w1 ++ w2)%list |}
  end.

(** ** The state machine of spec section 4.4 *)

(** The transition table, as the spec words it. *)
Definition transition (from to : Status) : bool :=
  match from, to with
  | Created, AwaitingPayment
  | AwaitingPayment, Paid
  | Paid, Processing
  | Processing, Delivered
  | Created, Cancelled
  | AwaitingPayment, Cancelled => true
  | _, _ => false
  end.

(** [precedes a b]: the table leads from [a] to [b] in one or more steps,
    so that a change from [b] to [a] moves backward. *)
Inductive precedes : Status -> Status -> Prop :=
| precedes_step a b : transition a b = true -> precedes a b
| precedes_trans a b c : transition a b = true -> precedes b c -> precedes a c.

(** ** Relations between documents *)

(** Two documents that agree on every path other than [paidAt]. *)
Definition sameButPaidAt (o o' : Order.t) : Prop :=
  Order._id o' = Order._id o /\ Order.user o' = Order.user o /\
  Order.items o' = Order.items o /\
  Order.shippingAddress o' = Order.shippingAddress o /\
  Order.paymentMethod o' = Order.paymentMethod o /\
  Order.taxPrice o' = Order.taxPrice o /\
  Order.shippingPrice o' = Order.shippingPrice o /\
  Order.totalPrice o' = Order.totalPrice o /\
  Order.isPaid o' = Order.isPaid o /\
  Order.paymentResult o' = Order.paymentResult o /\
  Order.isDelivered o' = Order.isDelivered o /\
  Order.deliveredAt o' = Order.deliveredAt o /\
  Order.status o' = Order.status o.

(** The frozen total in cents, the unit of the gateway's amounts. *)
Definition totalInCents (o : Order.t) : Z := Order.totalPrice o * 100.

(** The reduce of [createPaymentIntent] run over the prices frozen in the
    items instead of the catalog's: the same sum, from the left, of price
    times quantity. *)
Definition frozenTotal (items : list OrderItem.t) (total : Z) : Z :=
  fold_left
    (fun total item => total + OrderItem.price item * OrderItem.quantity item)
    items total.

(** ** Sample data *)

Module Sample.
Definition alice : User.t :=
  {| User.id := "u1"; User.email := "alice@example.com"; User.role := "user" |}.

Definition widget (price : Z) : Product.t :=
  {| Product._id := "p1"; Product.name := "widget"; Product.price := price |}.

(** One widget at 10, tax 1, shipping 2. *)
Definition body : CreateOrderBody.t :=
  {| CreateOrderBody.items :=
       Some [{| CreateOrderBody.product := "p1"; CreateOrderBody.quantity := 1 |}];
     CreateOrderBody.shippingAddress := "1 Main St";
     CreateOrderBody.paymentMethod := "card";
     CreateOrderBody.taxPrice := Some 1;
     CreateOrderBody.shippingPrice := Some 2 |}.

Definition order : Order.t :=
  {| Order._id := "o1"; Order.user := "u1";
     Order.items := [{| OrderItem.product := "p1"; OrderItem.quantity := 1;
                        OrderItem.price := 10 |}];
     Order.shippingAddress := "1 Main St"; Order.paymentMethod := "card";
     Order.taxPrice := 1; Order.shippingPrice := 2; Order.totalPrice := 13;
     Order.isPaid := false; Order.paidAt := None; Order.paymentResult := None;
     Order.isDelivered := false; Order.deliveredAt := None;
     Order.status := Created |}.

Definition intent (id : string) (amount : Z) : PaymentIntent.t :=
  {| PaymentIntent.id := id; PaymentIntent.status := "succeeded";
     PaymentIntent.created := 7; PaymentIntent.amount := amount;
     PaymentIntent.client_secret := "cs_" ++ id |}.

(** A gateway on which every intent has succeeded, and which verifies the
    signature ["good"] only; a verified body is the event type, and the
    event is about intent [pi_1] with amount 1 (one cent). *)
Definition stripe : Stripe.t :=
  {| Stripe.paymentIntents_create :=
       fun params => inr (intent "pi_1" (Stripe.amount params));
     Stripe.paymentIntents_retrieve := fun id => inr (intent id 1300);
     Stripe.webhooks_constructEvent :=
       fun body sig _ =>
         match sig with
         | Some "good" => inr {| Event.type := body; Event.object := intent "pi_1" 1 |}
         | _ => inl "No signatures found matching the expected signature for payload"
         end |}.

Definition succeeded : WebhookRequest.t :=
  {| WebhookRequest.body := "payment_intent.succeeded";
     WebhookRequest.stripe_signature := Some "good" |}.

Definition forged : WebhookRequest.t :=
  {| WebhookRequest.body := "payment_intent.succeeded";
     WebhookRequest.stripe_signature := Some "bad" |}.

(** The body [{paymentResult: {id: 'pi_1', ...}}] of PUT /orders/:id. *)
Definition reference : UpdateBody.t :=
  {| UpdateBody.user := None; UpdateBody.items := None;
     UpdateBody.shippingAddress := None; UpdateBody.paymentMethod := None;
     UpdateBody.taxPrice := None; UpdateBody.shippingPrice := None;
     UpdateBody.totalPrice := None; UpdateBody.isPaid := None;
     UpdateBody.paidAt := None;
     UpdateBody.paymentResult :=
       Some {| PaymentResult.id := "pi_1"; PaymentResult.status := "processing";
               PaymentResult.update_time := 0;
               PaymentResult.email_address := "alice@example.com" |};
     UpdateBody.isDelivered := None; UpdateBody.deliveredAt := None;
     UpdateBody.status := None |}.

(** The body [{totalPrice: 1, isPaid: true, status: 'Delivered'}]. *)
Definition overwrite : UpdateBody.t :=
  {| UpdateBody.user := None; UpdateBody.items := None;
     UpdateBody.shippingAddress := None; UpdateBody.paymentMethod := None;
     UpdateBody.taxPrice := None; UpdateBody.shippingPrice := None;
     UpdateBody.totalPrice := Some 1; UpdateBody.isPaid := Some true;
     UpdateBody.paidAt := None; UpdateBody.paymentResult := None;
     UpdateBody.isDelivered := None; UpdateBody.deliveredAt := None;
     UpdateBody.status := Some Delivered |}.
End Sample.

(** ** Reading and deleting orders (controllers/orders) *)

Module Account.
(** The fields of a user document that populate selects ([name email]). *)
Record t := { _id : ObjectId; name : string; email : string }.

Fixpoint findById (users : list t) (i : ObjectId) : option t :=
  match users with
  | [] => None
  | u :: rest => if String.eqb (_id u) i then Some u else findById rest i
  end.
End Account.

Module Populated.
(** An order as a query with populate returns it: the stored document,
    the document its [user] refers to when that path is populated (null
    when the user is gone), and for every item the catalog document its
    [product] refers to (null when the product is gone). *)
Record t := {
  order : Order.t;
  user : option (option Account.t);
  products : list (option Product.t)
}.
End Populated.

(** [.populate({path: 'items.product', select: 'name price'})] *)
Definition populateProducts (products : list Product.t) (o : Order.t)
  : list (option Product.t) :=
  map (fun item => Product.findById products (OrderItem.product item)) (Order.items o).

(** [getOrder]; [inr data] is [res.status(200).json({success: true, data})].
    The ownership test reads [order.user._id] of the populated user, a
    TypeError when the user is gone. *)
Definition getOrder (user : User.t) (i : ObjectId) (users : list Account.t)
    (products : list Product.t) (orders : list Order.t)
  : Response + Populated.t :=
  match Order.findById orders i with
  | None => inl (notFound "Order" i)
  | Some order =>
      match Account.findById users (Order.user order) with
      | None => inl (Next (Thrown "TypeError"))
      | Some owner =>
          if negb (String.eqb (Account._id owner) (User.id user))
             && negb (String.eqb (User.role user) "admin")
          then inl (notAuthorizedTo "access" user)
          else inr {| Populated.order := order;
                      Populated.user := Some (Some owner);
                      Populated.products := populateProducts products order |}
      end
  end.

(** [getOrders]: every order, with user and products populated; the
    answer is 200 with [count] and [data]. *)
Definition getOrders (users : list Account.t) (products : list Product.t)
    (orders : list Order.t) : Z * list Populated.t :=
  let data :=
    map (fun o => {| Populated.order := o;
                     Populated.user := Some (Account.findById users (Order.user o));
                     Populated.products := populateProducts products o |})
      orders in
  (Z.of_nat (List.length data), data).

(** [getMyOrders]: [Order.find({user: req.user.id})] with the products
    populated; the answer is 200 with [count] and [data]. *)
Definition getMyOrders (user : User.t) (products : list Product.t)
    (orders : list Order.t) : Z * list Populated.t :=
  let data :=
    map (fun o => {| Populated.order := o;
                     Populated.user := None;
                     Populated.products := populateProducts products o |})
      (filter (fun o => String.eqb (Order.user o) (User.id user)) orders) in
  (Z.of_nat (List.length data), data).

(** [order.remove()]: the stored document of that [_id] is deleted. *)
Fixpoint removeById (i : ObjectId) (orders : list Order.t) : list Order.t :=
  match orders with
  | [] => []
  | o :: rest => if Order.byId i o then rest else o :: removeById i rest
  end.

(** [deleteOrder]; [inr tt] is [res.status(200).json({success: true,
    data: {}})].  The route is DELETE /orders/:id behind [protect] and
    [authorize('admin')]. *)
Definition deleteOrder (i : ObjectId) (orders : list Order.t)
  : list Order.t * (Response + unit) :=
  match Order.findById orders i with
  | None => (orders, inl (notFound "Order" i))
  | Some order => (removeById (Order._id order) orders, inr tt)
  end.

(** ** The catalog (controllers/products and the product schema) *)

Module Image.
Record t := { public_id : string; url : string }.
End Image.

Module ProductDoc.
(** The paths of a product document that the schema validates or that the
    controllers read.  [ratings] is an average, hence a rational. *)
Record t := {
  _id : ObjectId;
  name : string;
  slug : string;
  description : string;
  price : Z;
  discountPrice : option Z;
  category : string;
  stock : Z;
  ratings : Q;
  numOfReviews : Z;
  images : list Image.t;
  seller : ObjectId
}.

Fixpoint findById (catalog : list t) (i : ObjectId) : option t :=
  match catalog with
  | [] => None
  | p :: rest => if String.eqb (_id p) i then Some p else findById rest i
  end.

(** [product.remove()]'s own deletion. *)
Fixpoint removeById (i : ObjectId) (catalog : list t) : list t :=
  match catalog with
  | [] => []
  | p :: rest => if String.eqb (_id p) i then rest else p :: removeById i rest
  end.
End ProductDoc.

Module Review.
(** A review document; the product schema's hook and aggregate read its
    [product] and [rating]. *)
Record t := { _id : ObjectId; product : ObjectId; rating : Z }.
End Review.


Module ProductBody.
(** The body of POST /products, on the paths of [ProductDoc.t]; an absent
    path is [None]. *)
Record t := {
  name : option string;
  description : option string;
  price : option Z;
  discountPrice : option Z;
  category : option string;
  stock : option Z;
  ratings : option Q;
  numOfReviews : option Z;
  images : list Image.t;
  seller : option ObjectId
}.
End ProductBody.





(** [.sort({ratings: -1})]: descending by [ratings], documents of equal
    rating in natural order. *)
Fixpoint insertByRatings (p : ProductDoc.t) (sorted : list ProductDoc.t)
  : list ProductDoc.t :=
  match sorted with
  | [] => [p]
  | q :: rest =>
      if Qle_bool (ProductDoc.ratings q) (ProductDoc.ratings p)
      then p :: q :: rest
      else q :: insertByRatings p rest
  end.

Fixpoint sortByRatings (catalog : list ProductDoc.t) : list ProductDoc.t :=
  match catalog with
  | [] => []
  | p :: rest => insertByRatings p (sortByRatings rest)
  end.

(** [getTopProducts]: the data of the 200 answer. *)
Definition getTopProducts (catalog : list ProductDoc.t) : list ProductDoc.t :=
  firstn 5 (sortByRatings catalog).

(** [getRelatedProducts]; [inr data] is the 200 answer. *)
Definition getRelatedProducts (i : ObjectId) (catalog : list ProductDoc.t)
  : Response + list ProductDoc.t :=
  match ProductDoc.findById catalog i with
  | None => inl (notFound "Product" i)
  | Some product =>
      inr (firstn 5
             (filter
                (fun p => String.eqb (ProductDoc.category p) (ProductDoc.category product)
                          && negb (String.eqb (ProductDoc._id p) i))
                catalog))
  end.


(** The loop of [deleteProduct] over the images: the calls made to
    [cloudinary.uploader.destroy], in order, and whether all of them
    resolved; a call that throws ends the loop. *)
Fixpoint destroyImages (destroy : string -> bool) (images : list Image.t)
  : list string * bool :=
  match images with
  | [] => ([], true)
  | image :: rest =>
      if destroy (Image.public_id image) then
        let (calls, ok) := destroyImages destroy rest in
        (Image.public_id image :: calls, ok)
      else ([Image.public_id image], false)
  end.

Module Shop.
(** What [deleteProduct] can change: the catalog, the reviews, and the
    image host, seen through the calls made to it. *)
Record t := {
  catalog : list ProductDoc.t;
  reviews : list Review.t;
  destroyed : list string
}.
End Shop.

(** [deleteProduct].  [destroy] tells whether
    [cloudinary.uploader.destroy] resolves for a public id.  The schema's
    pre-remove hook deletes the reviews of the product before the product
    itself goes. *)
Definition deleteProduct (destroy : string -> bool) (user : User.t)
    (i : ObjectId) (catalog : list ProductDoc.t) (reviews : list Review.t)
  : Shop.t * (Response + unit) :=
  let unchanged := {| Shop.catalog := catalog; Shop.reviews := reviews;
                      Shop.destroyed := [] |} in
  match ProductDoc.findById catalog i with
  | None => (unchanged, inl (notFound "Product" i))
  | Some product =>
      if negb (String.eqb (ProductDoc.seller product) (User.id user))
         && negb (String.eqb (User.role user) "admin")
      then
        (unchanged,
         inl (Next (ErrorResponse
                      ("User " ++ User.id user
                       ++ " is not authorized to delete this product") 401)))
      else
        let (calls, ok) := destroyImages destroy (ProductDoc.images product) in
        if ok then
          ({| Shop.catalog := ProductDoc.removeById (ProductDoc._id product) catalog;
              Shop.reviews :=
                filter (fun r => negb (String.eqb (Review.product r)
                                         (ProductDoc._id product)))
                  reviews;
              Shop.destroyed := calls |},
           inr tt)
        else
          ({| Shop.catalog := catalog; Shop.reviews := reviews;
              Shop.destroyed := calls |},
           inl (Next (Thrown "cloudinary")))
  end.

(** [ratedAtLeast a b]: [a] is rated no lower than [b]. *)
Definition ratedAtLeast (a b : ProductDoc.t) : Prop :=
  (ProductDoc.ratings b <= ProductDoc.ratings a)%Q.

(** * Properties *)

(** ** The collection *)

Section Collection.
Variables (filter : Order.t -> bool) (update : Order.t -> Order.t).

Lemma updateOne_no_match (orders : list Order.t) :
  (forall o, In o orders -> filter o = false) ->
  Order.updateOne filter update orders = (orders, false).
Proof.
  induction orders as [|o rest IH]; intros Hnone; simpl; [reflexivity|].
  rewrite (Hnone o (or_introl eq_refl)).
  rewrite IH; [reflexivity|].
  intros x Hx. apply Hnone. now right.
Qed.

Lemma updateOne_first_match (pre post : list Order.t) (o : Order.t) :
  (forall x, In x pre -> filter x = false) ->
  filter o = true ->
  Order.updateOne filter update (pre ++ o :: post)
  = ((pre ++ update o :: post)%list, true).
Proof.
  induction pre as [|x pre IH]; intros Hpre Ho; simpl.
  - now rewrite Ho.
  - rewrite (Hpre x (or_introl eq_refl)).
    rewrite IH; [reflexivity| |assumption].
    intros y Hy. apply Hpre. now right.
Qed.

Lemma updateOne_wrote_iff_match (orders : list Order.t) :
  snd (Order.updateOne filter update orders) = existsb filter orders.
Proof.
  induction orders as [|o rest IH]; simpl; [reflexivity|].
  destruct (filter o); simpl; [reflexivity|].
  destruct (Order.updateOne filter update rest); simpl in *; assumption.
Qed.
End Collection.

Lemma findById_split (orders : list Order.t) (i : ObjectId) (o : Order.t) :
  Order.findById orders i = Some o ->
  exists pre post,
    orders = (pre ++ o :: post)%list /\
    (forall x, In x pre -> Order.byId i x = false) /\
    Order.byId i o = true.
Proof.
  induction orders as [|x rest IH]; simpl; [discriminate|].
  destruct (String.eqb (Order._id x) i) eqn:E; intros H.
  - injection H as ->. exists [], rest. repeat split; [|assumption].
    intros y [].
  - destruct (IH H) as (pre & post & -> & Hpre & Ho).
    exists (x :: pre), post. repeat split; [|assumption].
    intros y [<-|Hy]; [exact E|now apply Hpre].
Qed.

Lemma findById_first_match (pre post : list Order.t) (i : ObjectId) (o : Order.t) :
  (forall x, In x pre -> Order.byId i x = false) ->
  Order.byId i o = true ->
  Order.findById (pre ++ o :: post) i = Some o.
Proof.
  unfold Order.byId.
  induction pre as [|x pre IH]; intros Hpre Ho; simpl.
  - now rewrite Ho.
  - rewrite (Hpre x (or_introl eq_refl)). apply IH; [|assumption].
    intros y Hy. apply Hpre. now right.
Qed.

(** Saving a loaded document writes its modified paths onto the stored
    one, which is then what a load returns, as long as the assignments
    leave [_id] alone. *)
Lemma save_loaded (orders : list Order.t) (i : ObjectId) (o : Order.t)
    (modified : Order.t -> Order.t) :
  Order.findById orders i = Some o ->
  Order._id (modified o) = Order._id o ->
  exists pre post,
    orders = (pre ++ o :: post)%list /\
    (forall x, In x pre -> Order.byId i x = false) /\
    Order.updateOne (Order.byId i) modified orders
    = ((pre ++ modified o :: post)%list, true) /\
    Order.findById (pre ++ modified o :: post) i = Some (modified o).
Proof.
  intros Hfind Hid.
  destruct (findById_split _ _ _ Hfind) as (pre & post & -> & Hpre & Ho).
  exists pre, post. repeat split; try assumption.
  - now apply updateOne_first_match.
  - apply findById_first_match; [assumption|].
    unfold Order.byId in *. now rewrite Hid.
Qed.

Lemma findById_id (orders : list Order.t) (i : ObjectId) (o : Order.t) :
  Order.findById orders i = Some o -> Order._id o = i.
Proof.
  intros H. destruct (findById_split _ _ _ H) as (_ & _ & _ & _ & Ho).
  now apply String.eqb_eq.
Qed.

(** ** The payment intent *)

(** The amount [createPaymentIntent] hands to the gateway is one hundred
    times the total of the items at the catalog prices of the moment. *)
Lemma createPaymentIntent_amount (stripe : Stripe.t) (user : User.t)
    (orderId : ObjectId) (products : list Product.t) (orders : list Order.t)
    (params : Stripe.CreateParams) (response : Response) :
  createPaymentIntent stripe user orderId products orders = ([params], response) ->
  exists order,
    Order.findById orders orderId = Some order /\
    reduceTotal products (Order.items order) 0 = Some (Stripe.amount params / 100).
Proof.
  unfold createPaymentIntent, notFound.
  destruct (Order.findById orders orderId) as [order|]; [|discriminate].
  destruct (negb _); [discriminate|].
  destruct (Order.isPaid order); [discriminate|].
  destruct (reduceTotal products (Order.items order) 0) as [total|] eqn:E;
    [|discriminate].
  intros H. exists order. split; [reflexivity|].
  destruct (Stripe.paymentIntents_create stripe _);
    injection H as <- _; simpl; now rewrite Z.div_mul.
Qed.

(** C1: the amount passed to the gateway is not the order's frozen total.
    For the sample order (one widget frozen at 10, tax 1, shipping 2, total
    13, that is 1300 cents) the owner's payment intent is created for 1000
    cents while the catalog price is still 10, and for 2000 cents once the
    catalog price has become 20. *)
Theorem createPaymentIntent_ignores_frozen_total :
  Order.totalPrice Sample.order = 13 /\
  totalInCents Sample.order = 1300 /\
  map Stripe.amount
    (fst (createPaymentIntent Sample.stripe Sample.alice "o1"
            [Sample.widget 10] [Sample.order])) = [1000] /\
  map Stripe.amount
    (fst (createPaymentIntent Sample.stripe Sample.alice "o1"
            [Sample.widget 20] [Sample.order])) = [2000].
Proof. repeat split. Qed.

(** ** Confirmation *)

Lemma sameButPaidAt_refl (o : Order.t) : sameButPaidAt o o.
Proof. repeat split. Qed.


Lemma Forall2_sameButPaidAt_refl (orders : list Order.t) :
  Forall2 sameButPaidAt orders orders.
Proof.
  induction orders; constructor; auto using sameButPaidAt_refl.
Qed.

(** A confirmation that gets past the load and the gateway check rewrites
    the loaded order in place and answers 200 with it. *)
Lemma confirmPayment_success (stripe : Stripe.t) (user : User.t)
    (orderId : ObjectId) (paymentId : string) (now : Z)
    (pre post : list Order.t) (o : Order.t) (paymentIntent : PaymentIntent.t) :
  (forall x, In x pre -> Order.byId orderId x = false) ->
  Order.byId orderId o = true ->
  Order.user o = User.id user ->
  confirmVerify stripe paymentId = inr paymentIntent ->
  let paid := Order.markPaid now (confirmResult user paymentIntent) o in
  confirmPayment stripe user orderId paymentId now (pre ++ o :: post)
  = ((pre ++ paid :: post)%list, Res 200 (Data paid)).
Proof.
  intros Hpre Ho Huser Hverify paid.
  unfold confirmPayment, confirmLoad.
  rewrite (findById_first_match pre post orderId o Hpre Ho).
  rewrite Huser, String.eqb_refl. simpl. rewrite Hverify.
  unfold confirmSave, confirmWrite, Order.save.
  apply String.eqb_eq in Ho. rewrite Ho.
  rewrite updateOne_first_match; [reflexivity|assumption|].
  unfold Order.byId. rewrite Ho. apply String.eqb_refl.
Qed.

(** Either a confirmation stops before its save, with a response that does
    not depend on the clock and the collection untouched, or it is the
    successful one of [confirmPayment_success]. *)
Lemma confirmPayment_cases (stripe : Stripe.t) (user : User.t)
    (orderId : ObjectId) (paymentId : string) (orders : list Order.t) :
  (exists response,
     forall now,
       confirmPayment stripe user orderId paymentId now orders = (orders, response))
  \/
  (exists pre post o paymentIntent,
     orders = (pre ++ o :: post)%list /\
     (forall x, In x pre -> Order.byId orderId x = false) /\
     Order.byId orderId o = true /\
     Order.user o = User.id user /\
     confirmVerify stripe paymentId = inr paymentIntent).
Proof.
  unfold confirmPayment, confirmLoad.
  destruct (Order.findById orders orderId) as [o|] eqn:Hfind.
  - destruct (String.eqb (Order.user o) (User.id user)) eqn:Huser; simpl.
    + destruct (confirmVerify stripe paymentId) as [response|paymentIntent] eqn:Hv.
      * left. now exists response.
      * right. destruct (findById_split _ _ _ Hfind) as (pre & post & -> & Hpre & Ho).
        exists pre, post, o, paymentIntent. apply String.eqb_eq in Huser. auto.
    + left. eexists. reflexivity.
  - left. eexists. reflexivity.
Qed.



(** C3, as amended: confirming an order that is already paid under one
    intent with a second, distinct intent that the gateway reports as
    succeeded answers 200 and replaces the recorded payment reference and
    [paidAt] by those of the second intent. *)
Theorem confirmPayment_overwrites_reference (stripe : Stripe.t) (user : User.t)
    (orderId : ObjectId) (paymentId : string) (now : Z)
    (orders : list Order.t) (order : Order.t)
    (reference : PaymentResult.t) (paymentIntent : PaymentIntent.t) :
  Order.findById orders orderId = Some order ->
  Order.user order = User.id user ->
  Order.isPaid order = true ->
  Order.paymentResult order = Some reference ->
  Stripe.paymentIntents_retrieve stripe paymentId = inr paymentIntent ->
  PaymentIntent.status paymentIntent = "succeeded" ->
  PaymentResult.id reference <> PaymentIntent.id paymentIntent ->
  exists db updated,
    confirmPayment stripe user orderId paymentId now orders
    = (db, Res 200 (Data updated)) /\
    Order.findById db orderId = Some updated /\
    Order.paymentResult updated = Some (confirmResult user paymentIntent) /\
    Order.paymentResult updated <> Some reference /\
    Order.paidAt updated = Some now.
Proof.
  intros Hfind Huser _ _ Hretrieve Hstatus Hdistinct.
  assert (Hverify : confirmVerify stripe paymentId = inr paymentIntent).
  { unfold confirmVerify. now rewrite Hretrieve, Hstatus. }
  destruct (findById_split _ _ _ Hfind) as (pre & post & -> & Hpre & Ho).
  eexists. eexists. split.
  - exact (confirmPayment_success stripe user orderId paymentId now
             pre post order paymentIntent Hpre Ho Huser Hverify).
  - split; [|split; [reflexivity|split; [|reflexivity]]].
    + apply findById_first_match; assumption.
    + simpl. intros H. injection H as H. apply Hdistinct.
      rewrite <- H. reflexivity.
Qed.

Lemma confirmPayment_overwrites_reference_witness :
  exists db updated,
    confirmPayment Sample.stripe Sample.alice "o1" "pi_2" 200
      (fst (confirmPayment Sample.stripe Sample.alice "o1" "pi_1" 100 [Sample.order]))
    = (db, Res 200 (Data updated)) /\
    Order.findById db "o1" = Some updated /\
    Order.paymentResult updated
    = Some (confirmResult Sample.alice (Sample.intent "pi_2" 1300)) /\
    Order.paymentResult updated
    <> Some (confirmResult Sample.alice (Sample.intent "pi_1" 1300)) /\
    Order.paidAt updated = Some 200.
Proof.
  eapply (confirmPayment_overwrites_reference Sample.stripe Sample.alice
            "o1" "pi_2" 200); try reflexivity.
  simpl. intros H. discriminate H.
Defined.

(** C3, as stated, fails: the sample order paid under [pi_1] and then
    confirmed with [pi_2] answers 200 and now records [pi_2]. *)
Lemma confirmPayment_no_double_payment_detection :
  let paid := fst (confirmPayment Sample.stripe Sample.alice "o1" "pi_1" 100 [Sample.order]) in
  let again := confirmPayment Sample.stripe Sample.alice "o1" "pi_2" 200 paid in
  map Order.isPaid paid = [true] /\
  map (fun o => option_map PaymentResult.id (Order.paymentResult o)) paid = [Some "pi_1"] /\
  (exists o, snd again = Res 200 (Data o)) /\
  map (fun o => option_map PaymentResult.id (Order.paymentResult o)) (fst again)
  = [Some "pi_2"].
Proof.
  cbv zeta. repeat split. eexists. reflexivity.
Qed.

(** The sibling PUT /orders/:id/pay overwrites the reference in the same
    way. *)
Example updateOrderToPaid_overwrites :
  let paid := fst (confirmPayment Sample.stripe Sample.alice "o1" "pi_1" 100 [Sample.order]) in
  let body := {| PayBody.id := "pi_2"; PayBody.status := "COMPLETED";
                 PayBody.update_time := 8;
                 PayBody.payer := Some "bob@example.com" |} in
  map (fun o => (option_map PaymentResult.id (Order.paymentResult o), Order.paidAt o))
    (fst (updateOrderToPaid Sample.alice "o1" body 200 paid))
  = [(Some "pi_2", Some 200)].
Proof. reflexivity. Qed.

(** ** The webhook *)

(** C8: when the signature does not verify, the webhook answers 400 with
    the plain text [Webhook Error: <message>] and the collection is left as
    it was; verification is the first thing the handler does. *)
Theorem webhook_invalid_signature (stripe : Stripe.t) (secret : option string)
    (req : WebhookRequest.t) (now : Z) (orders : list Order.t)
    (message : string) :
  Stripe.webhooks_constructEvent stripe (WebhookRequest.body req)
    (WebhookRequest.stripe_signature req) secret = inl message ->
  webhook stripe secret req now orders
  = (orders, Res 400 (Text ("Webhook Error: " ++ message))).
Proof.
  intros Hsig. unfold webhook. now rewrite Hsig.
Qed.

Lemma webhook_invalid_signature_witness :
  webhook Sample.stripe (Some "whsec") Sample.forged 200
    (fst (confirmPayment Sample.stripe Sample.alice "o1" "pi_1" 100 [Sample.order]))
  = (fst (confirmPayment Sample.stripe Sample.alice "o1" "pi_1" 100 [Sample.order]),
     Res 400
       (Text "Webhook Error: No signatures found matching the expected signature for payload")).
Proof.
  apply (webhook_invalid_signature Sample.stripe (Some "whsec") Sample.forged 200
           _ "No signatures found matching the expected signature for payload").
  reflexivity.
Defined.

Lemma byPaymentResultId_false (pid : string) (o : Order.t) :
  match Order.paymentResult o with
  | Some pr => PaymentResult.id pr <> pid
  | None => True
  end ->
  Order.byPaymentResultId pid o = false.
Proof.
  unfold Order.byPaymentResultId.
  destruct (Order.paymentResult o) as [pr|]; [|reflexivity].
  intros H. now apply String.eqb_neq.
Qed.

(** The webhook never writes [status], [totalPrice] or the owner. *)
Lemma webhookWrite_keeps (event : Event.t) (now : Z) (orders : list Order.t) :
  Forall2
    (fun o o' =>
       Order._id o' = Order._id o /\ Order.status o' = Order.status o /\
       Order.totalPrice o' = Order.totalPrice o /\ Order.user o' = Order.user o)
    orders (fst (webhookWrite event now orders)).
Proof.
  unfold webhookWrite.
  destruct (String.eqb (Event.type event) "payment_intent.succeeded");
    [|induction orders; constructor; auto].
  induction orders as [|o rest IH]; simpl; [constructor|].
  destruct (Order.byPaymentResultId _ o).
  - constructor; [repeat split|]. clear IH. induction rest; constructor; auto.
  - destruct (Order.updateOne _ _ rest). constructor; auto.
Qed.

(** The only order the webhook can change is one that records the event's
    intent id. *)
Lemma webhookWrite_only_match (event : Event.t) (now : Z) (orders : list Order.t) :
  Forall2
    (fun o o' =>
       o' = o \/
       Order.byPaymentResultId (PaymentIntent.id (Event.object event)) o = true)
    orders (fst (webhookWrite event now orders)).
Proof.
  assert (Hsame : forall l : list Order.t,
             Forall2 (fun o o' =>
                        o' = o \/
                        Order.byPaymentResultId
                          (PaymentIntent.id (Event.object event)) o = true) l l).
  { induction l; constructor; auto. }
  unfold webhookWrite.
  destruct (String.eqb (Event.type event) "payment_intent.succeeded");
    [|apply Hsame].
  induction orders as [|o rest IH]; simpl; [constructor|].
  destruct (Order.byPaymentResultId _ o) eqn:E.
  - constructor; [now right | apply Hsame].
  - destruct (Order.updateOne _ _ rest). constructor; [now left | exact IH].
Qed.

(** C10, as amended: the success case of the webhook selects the order to
    update solely by the stored [paymentResult.id].  For a verified success
    event whose intent id no order stores, no order is modified; otherwise
    the first order that stores it is marked paid, whichever request stored
    the id, the confirmation call, PUT /orders/:id/pay or PUT /orders/:id:
    the order need not have been confirmed. *)
Theorem webhook_selects_by_reference (stripe : Stripe.t) (secret : option string)
    (req : WebhookRequest.t) (now : Z) (orders : list Order.t)
    (event : Event.t) :
  Stripe.webhooks_constructEvent stripe (WebhookRequest.body req)
    (WebhookRequest.stripe_signature req) secret = inr event ->
  Event.type event = "payment_intent.succeeded" ->
  ((forall o, In o orders ->
      match Order.paymentResult o with
      | Some pr => PaymentResult.id pr <> PaymentIntent.id (Event.object event)
      | None => True
      end) ->
   webhook stripe secret req now orders = (orders, Res 200 Received)) /\
  (forall pre o post,
     orders = (pre ++ o :: post)%list ->
     (forall x, In x pre ->
        Order.byPaymentResultId (PaymentIntent.id (Event.object event)) x = false) ->
     Order.byPaymentResultId (PaymentIntent.id (Event.object event)) o = true ->
     let paid :=
       Order.setPaidStatus now (PaymentIntent.status (Event.object event)) o in
     webhook stripe secret req now orders
     = ((pre ++ paid :: post)%list, Res 200 Received) /\
     Order.isPaid paid = true /\ Order.paidAt paid = Some now).
Proof.
  intros Hsig Htype. split.
  - intros Hnone. unfold webhook, webhookWrite.
    rewrite Hsig, Htype. simpl.
    rewrite updateOne_no_match; [reflexivity|].
    intros o Ho. apply byPaymentResultId_false. now apply Hnone.
  - intros pre o post -> Hpre Ho paid. split; [|split; reflexivity].
    unfold webhook, webhookWrite. rewrite Hsig, Htype. simpl.
    now rewrite updateOne_first_match.
Qed.

Lemma webhook_selects_by_reference_witness :
  let event := {| Event.type := "payment_intent.succeeded";
                  Event.object := Sample.intent "pi_1" 1 |} in
  let orders := [Sample.order; UpdateBody.assign Sample.reference Sample.order] in
  ((forall o, In o orders ->
      match Order.paymentResult o with
      | Some pr => PaymentResult.id pr <> PaymentIntent.id (Event.object event)
      | None => True
      end) ->
   webhook Sample.stripe None Sample.succeeded 200 orders
   = (orders, Res 200 Received)) /\
  (forall pre o post,
     orders = (pre ++ o :: post)%list ->
     (forall x, In x pre ->
        Order.byPaymentResultId (PaymentIntent.id (Event.object event)) x = false) ->
     Order.byPaymentResultId (PaymentIntent.id (Event.object event)) o = true ->
     let paid :=
       Order.setPaidStatus 200 (PaymentIntent.status (Event.object event)) o in
     webhook Sample.stripe None Sample.succeeded 200 orders
     = ((pre ++ paid :: post)%list, Res 200 Received) /\
     Order.isPaid paid = true /\ Order.paidAt paid = Some 200).
Proof.
  intros event orders.
  apply (webhook_selects_by_reference Sample.stripe None Sample.succeeded 200
           orders event).
  - reflexivity.
  - reflexivity.
Defined.

(** C10, as stated, fails in its last clause: the sample order was never
    confirmed; its owner wrote a payment reference onto it through PUT
    /orders/:id, which left it unpaid, and the success webhook for that
    intent then marks it paid. *)
Lemma webhook_marks_unconfirmed_order_paid :
  let written :=
    updateOrder (fun _ => true) Sample.alice "o1" Sample.reference [Sample.order] in
  let after := webhook Sample.stripe None Sample.succeeded 200 (fst written) in
  (exists o, snd written = Res 200 (Data o)) /\
  map Order.isPaid (fst written) = [false] /\
  map Order.paidAt (fst written) = [None] /\
  snd after = Res 200 Received /\
  map Order.isPaid (fst after) = [true] /\
  map Order.paidAt (fst after) = [Some 200].
Proof.
  cbv zeta. split; [eexists; reflexivity|]. repeat split.
Qed.

(** C4, as amended: a verified success event is accepted whatever its
    amount.  When the amount differs from the frozen total of the first
    order that records the event's intent id, the handler still
    acknowledges the event and marks that order paid, with the event's
    gateway status; it does not write the order's [status] or total. *)
Theorem webhook_accepts_any_amount (stripe : Stripe.t) (secret : option string)
    (req : WebhookRequest.t) (now : Z) (pre post : list Order.t) (o : Order.t)
    (event : Event.t) :
  Stripe.webhooks_constructEvent stripe (WebhookRequest.body req)
    (WebhookRequest.stripe_signature req) secret = inr event ->
  Event.type event = "payment_intent.succeeded" ->
  (forall x, In x pre ->
     Order.byPaymentResultId (PaymentIntent.id (Event.object event)) x = false) ->
  Order.byPaymentResultId (PaymentIntent.id (Event.object event)) o = true ->
  PaymentIntent.amount (Event.object event) <> totalInCents o ->
  let paid :=
    Order.setPaidStatus now (PaymentIntent.status (Event.object event)) o in
  webhook stripe secret req now (pre ++ o :: post)
  = ((pre ++ paid :: post)%list, Res 200 Received) /\
  Order.isPaid paid = true /\ Order.paidAt paid = Some now /\
  Order.status paid = Order.status o /\ Order.totalPrice paid = Order.totalPrice o.
Proof.
  intros Hsig Htype Hpre Ho _ paid. split; [|repeat split].
  unfold webhook, webhookWrite. rewrite Hsig, Htype. simpl.
  now rewrite updateOne_first_match.
Qed.

(** The sample order once its owner has written a payment reference onto
    it through PUT /orders/:id: unpaid, with [paymentResult.id = pi_1]. *)
Example referenced_order :
  exists o,
    fst (updateOrder (fun _ => true) Sample.alice "o1" Sample.reference [Sample.order])
    = [o] /\
    Order.isPaid o = false /\ Order.totalPrice o = 13 /\
    option_map PaymentResult.id (Order.paymentResult o) = Some "pi_1".
Proof. eexists. repeat split. Qed.

Lemma webhook_accepts_any_amount_witness :
  let o := UpdateBody.assign Sample.reference Sample.order in
  let paid := Order.setPaidStatus 200 "succeeded" o in
  webhook Sample.stripe None Sample.succeeded 200 ([] ++ o :: [])
  = (([] ++ paid :: [])%list, Res 200 Received) /\
  Order.isPaid paid = true /\ Order.paidAt paid = Some 200 /\
  Order.status paid = Order.status o /\ Order.totalPrice paid = Order.totalPrice o.
Proof.
  apply (webhook_accepts_any_amount Sample.stripe None Sample.succeeded 200 [] []
           (UpdateBody.assign Sample.reference Sample.order)
           {| Event.type := "payment_intent.succeeded";
              Event.object := Sample.intent "pi_1" 1 |}).
  - reflexivity.
  - reflexivity.
  - intros x [].
  - reflexivity.
  - vm_compute. discriminate.
Defined.

(** C4, as stated, fails: a verified success event for [pi_1] with amount
    1, against an unpaid order with frozen total 13 (1300 cents) that
    records [pi_1], is acknowledged and turns the order paid. *)
Lemma webhook_no_amount_check :
  let o := UpdateBody.assign Sample.reference Sample.order in
  let after := webhook Sample.stripe None Sample.succeeded 200 [o] in
  Order.totalPrice o = 13 /\ Order.isPaid o = false /\
  Stripe.webhooks_constructEvent Sample.stripe "payment_intent.succeeded"
    (Some "good") None
  = inr {| Event.type := "payment_intent.succeeded";
           Event.object := Sample.intent "pi_1" 1 |} /\
  snd after = Res 200 Received /\
  map Order.isPaid (fst after) = [true] /\
  fst after <> [o].
Proof.
  cbv zeta. repeat split. intros H. discriminate H.
Qed.

(** ** The race *)

(** The two serial schedules are the handlers run one after the other. *)
Lemma race_webhook_first (stripe : Stripe.t) (secret : option string)
    (user : User.t) (orderId : ObjectId) (paymentId : string)
    (req : WebhookRequest.t) (tc tw : Z) (orders : list Order.t) :
  let r := race WebhookFirst stripe secret user orderId paymentId req tc tw orders in
  let w := webhook stripe secret req tw orders in
  let c := confirmPayment stripe user orderId paymentId tc (fst w) in
  Race.orders r = fst c /\ Race.confirmResponse r = snd c /\
  Race.webhookResponse r = snd w.
Proof.
  unfold race, webhookOp, webhook, confirmFrom, confirmPayment.
  destruct (Stripe.webhooks_constructEvent _ _ _ _) as [message|event]; simpl;
    match goal with
    | |- context [confirmLoad user orderId ?db] =>
        destruct (confirmLoad user orderId db) as [response|order]; simpl;
        [auto | destruct (confirmVerify stripe paymentId); simpl; auto]
    end.
Qed.

Lemma race_webhook_last (stripe : Stripe.t) (secret : option string)
    (user : User.t) (orderId : ObjectId) (paymentId : string)
    (req : WebhookRequest.t) (tc tw : Z) (orders : list Order.t) :
  let r := race WebhookLast stripe secret user orderId paymentId req tc tw orders in
  let c := confirmPayment stripe user orderId paymentId tc orders in
  let w := webhook stripe secret req tw (fst c) in
  Race.orders r = fst w /\ Race.confirmResponse r = snd c /\
  Race.webhookResponse r = snd w.
Proof.
  unfold race, webhookOp, webhook, confirmFrom, confirmPayment.
  destruct (confirmLoad user orderId orders) as [response|order]; simpl;
    [|destruct (confirmVerify stripe paymentId); simpl];
    destruct (Stripe.webhooks_constructEvent _ _ _ _); simpl; auto.
Qed.

Section Schedules.
Variables (stripe : Stripe.t) (secret : option string) (user : User.t).
Variables (orderId : ObjectId) (paymentId : string) (req : WebhookRequest.t).
Variables (tc tw : Z) (pre post : list Order.t) (order : Order.t).
Variables (paymentIntent : PaymentIntent.t) (event : Event.t).

Hypothesis Hpre : forall x, In x pre -> Order.byId orderId x = false.
Hypothesis Horder : Order.byId orderId order = true.
Hypothesis Howner : Order.user order = User.id user.
Hypothesis Hfresh :
  forall o, In o (pre ++ order :: post) ->
    Order.byPaymentResultId (PaymentIntent.id paymentIntent) o = false.
Hypothesis Hverify : confirmVerify stripe paymentId = inr paymentIntent.
Hypothesis Hsig :
  Stripe.webhooks_constructEvent stripe (WebhookRequest.body req)
    (WebhookRequest.stripe_signature req) secret = inr event.
Hypothesis Htype : Event.type event = "payment_intent.succeeded".
Hypothesis Hsame :
  PaymentIntent.id (Event.object event) = PaymentIntent.id paymentIntent.

Local Abbreviation paid :=
  (Order.markPaid tc (confirmResult user paymentIntent) order).
Local Abbreviation settled :=
  (Order.setPaidStatus tw (PaymentIntent.status (Event.object event)) paid).

(** Before the save no order records the intent: the webhook writes
    nothing. *)
Lemma webhookOp_before_save :
  webhookOp stripe secret req tw (pre ++ order :: post)
  = ((pre ++ order :: post)%list, [], Res 200 Received).
Proof.
  unfold webhookOp, webhookWrite. rewrite Hsig, Htype, Hsame. simpl.
  now rewrite updateOne_no_match.
Qed.

(** After the save the saved order is the first to record the intent:
    the webhook writes it again. *)
Lemma webhookOp_after_save :
  webhookOp stripe secret req tw (pre ++ paid :: post)
  = ((pre ++ settled :: post)%list, [(ByWebhook, tw)], Res 200 Received).
Proof.
  unfold webhookOp, webhookWrite. rewrite Hsig, Htype, Hsame. simpl.
  rewrite updateOne_first_match.
  - reflexivity.
  - intros x Hx. apply Hfresh. apply in_or_app. now left.
  - unfold Order.byPaymentResultId. simpl. apply String.eqb_refl.
Qed.

Lemma confirmFrom_loaded :
  confirmFrom (inr order) stripe user paymentId tc (pre ++ order :: post)
  = ((pre ++ paid :: post)%list, [(ByConfirm, tc)], Res 200 (Data paid)).
Proof.
  unfold confirmFrom, confirmSave, confirmWrite, Order.save.
  rewrite Hverify.
  assert (Hid : Order._id order = orderId) by now apply String.eqb_eq.
  rewrite Hid. now rewrite updateOne_first_match.
Qed.

Lemma confirmLoad_found :
  confirmLoad user orderId (pre ++ order :: post) = inr order.
Proof.
  unfold confirmLoad.
  rewrite (findById_first_match pre post orderId order Hpre Horder).
  now rewrite Howner, String.eqb_refl.
Qed.

Lemma race_by_schedule (s : Schedule) :
  race s stripe secret user orderId paymentId req tc tw (pre ++ order :: post)
  = match s with
    | WebhookLast =>
        {| Race.orders := (pre ++ settled :: post)%list;
           Race.confirmResponse := Res 200 (Data paid);
           Race.webhookResponse := Res 200 Received;
           Race.writes := [(ByConfirm, tc); (ByWebhook, tw)] |}
    | _ =>
        {| Race.orders := (pre ++ paid :: post)%list;
           Race.confirmResponse := Res 200 (Data paid);
           Race.webhookResponse := Res 200 Received;
           Race.writes := [(ByConfirm, tc)] |}
    end.
Proof.
  destruct s; unfold race.
  - now rewrite webhookOp_before_save, confirmLoad_found, confirmFrom_loaded.
  - now rewrite webhookOp_before_save, confirmLoad_found, confirmFrom_loaded.
  - now rewrite confirmLoad_found, confirmFrom_loaded, webhookOp_after_save.
Qed.
End Schedules.

(** C5, as amended: when a confirm call by the owner and a verified
    success webhook for the same succeeded intent race on an order, and no
    order records that intent yet, both answer without error under every
    schedule and the order ends paid under that intent.  The webhook
    writes only when it runs after the confirm call's save, and then both
    write: [paidAt] is set twice and keeps the webhook's time.  Nothing is
    retried and no conflict is reported. *)
Theorem race_outcome (s : Schedule) (stripe : Stripe.t) (secret : option string)
    (user : User.t) (orderId : ObjectId) (paymentId : string)
    (req : WebhookRequest.t) (tc tw : Z) (orders : list Order.t)
    (order : Order.t) (paymentIntent : PaymentIntent.t) (event : Event.t) :
  Order.findById orders orderId = Some order ->
  Order.user order = User.id user ->
  (forall o, In o orders ->
     Order.byPaymentResultId (PaymentIntent.id paymentIntent) o = false) ->
  Stripe.paymentIntents_retrieve stripe paymentId = inr paymentIntent ->
  PaymentIntent.status paymentIntent = "succeeded" ->
  Stripe.webhooks_constructEvent stripe (WebhookRequest.body req)
    (WebhookRequest.stripe_signature req) secret = inr event ->
  Event.type event = "payment_intent.succeeded" ->
  PaymentIntent.id (Event.object event) = PaymentIntent.id paymentIntent ->
  let r := race s stripe secret user orderId paymentId req tc tw orders in
  (exists o, Race.confirmResponse r = Res 200 (Data o)) /\
  Race.webhookResponse r = Res 200 Received /\
  (exists final,
     Order.findById (Race.orders r) orderId = Some final /\
     Order.isPaid final = true /\
     option_map PaymentResult.id (Order.paymentResult final)
     = Some (PaymentIntent.id paymentIntent) /\
     Order.paidAt final = Some (match s with WebhookLast => tw | _ => tc end)) /\
  Race.writes r
  = match s with
    | WebhookLast => [(ByConfirm, tc); (ByWebhook, tw)]
    | _ => [(ByConfirm, tc)]
    end.
Proof.
  intros Hfind Howner Hfresh Hretrieve Hstatus Hsig Htype Hsame r.
  assert (Hverify : confirmVerify stripe paymentId = inr paymentIntent).
  { unfold confirmVerify. now rewrite Hretrieve, Hstatus. }
  destruct (findById_split _ _ _ Hfind) as (pre & post & -> & Hpre & Ho).
  subst r.
  rewrite (race_by_schedule stripe secret user orderId paymentId req tc tw
             pre post order paymentIntent event
             Hpre Ho Howner Hfresh Hverify Hsig Htype Hsame s).
  destruct s; simpl;
    (split; [eexists; reflexivity|]);
    (split; [reflexivity|]);
    (split; [|reflexivity]);
    eexists; (split; [apply findById_first_match; [exact Hpre|exact Ho]|]);
    repeat split.
Qed.

Lemma race_outcome_witness :
  let r := race WebhookBetween Sample.stripe None Sample.alice "o1" "pi_1"
             Sample.succeeded 100 200 [Sample.order] in
  (exists o, Race.confirmResponse r = Res 200 (Data o)) /\
  Race.webhookResponse r = Res 200 Received /\
  (exists final,
     Order.findById (Race.orders r) "o1" = Some final /\
     Order.isPaid final = true /\
     option_map PaymentResult.id (Order.paymentResult final) = Some "pi_1" /\
     Order.paidAt final = Some 100) /\
  Race.writes r = [(ByConfirm, 100)].
Proof.
  apply (race_outcome WebhookBetween Sample.stripe None Sample.alice "o1" "pi_1"
           Sample.succeeded 100 200 [Sample.order] Sample.order
           (Sample.intent "pi_1" 1300)
           {| Event.type := "payment_intent.succeeded";
              Event.object := Sample.intent "pi_1" 1 |});
    try reflexivity.
  intros o [<-|[]]. reflexivity.
Defined.

(** C5, as stated, fails: when the webhook for [pi_1] runs after the
    confirm call's save, both answer without error but both write, and
    [paidAt] is set at 100 and again at 200. *)
Lemma race_two_writes :
  let r := race WebhookLast Sample.stripe None Sample.alice "o1" "pi_1"
             Sample.succeeded 100 200 [Sample.order] in
  (exists o, Race.confirmResponse r = Res 200 (Data o)) /\
  Race.webhookResponse r = Res 200 Received /\
  Race.writes r = [(ByConfirm, 100); (ByWebhook, 200)] /\
  map Order.paidAt (Race.orders r) = [Some 200].
Proof.
  cbv zeta. split; [eexists; reflexivity|]. repeat split.
Qed.

(** ** Status and delivery *)

(** What a save of a loaded order stores and answers. *)
Lemma save_found (orders : list Order.t) (i : ObjectId) (o : Order.t)
    (modified : Order.t -> Order.t) :
  Order.findById orders i = Some o ->
  Order._id (modified o) = Order._id o ->
  Order.findById (fst (Order.save (Order._id o) modified orders)) i
  = Some (modified o).
Proof.
  intros Hfind Hid. unfold Order.save.
  rewrite (findById_id _ _ _ Hfind).
  destruct (save_loaded orders i o modified Hfind Hid)
    as (pre & post & _ & _ & -> & Hload).
  exact Hload.
Qed.

(** C6, as amended: the administrative status update moves an existing
    order from whatever status it has to whatever status the request
    names, in the table or not, and answers 200; no transition is
    refused. *)
Theorem updateOrderStatus_any_transition (i : ObjectId) (status : Status)
    (now : Z) (orders : list Order.t) (order : Order.t) :
  Order.findById orders i = Some order ->
  exists db updated,
    updateOrderStatus i status now orders = (db, Res 200 (Data updated)) /\
    Order.findById db i = Some updated /\
    Order.status updated = status.
Proof.
  intros Hfind. unfold updateOrderStatus. rewrite Hfind.
  eexists. eexists. split; [reflexivity|]. split.
  - apply save_found; [assumption|]. now destruct (Status_eqb status Delivered).
  - now destruct (Status_eqb status Delivered).
Qed.

Lemma updateOrderStatus_any_transition_witness :
  transition Created Processing = false /\
  exists db updated,
    updateOrderStatus "o1" Processing 5 [Sample.order] = (db, Res 200 (Data updated)) /\
    Order.findById db "o1" = Some updated /\
    Order.status updated = Processing.
Proof.
  split; [reflexivity|].
  apply (updateOrderStatus_any_transition "o1" Processing 5 [Sample.order] Sample.order).
  reflexivity.
Defined.

(** C6, as stated, fails: a delivered order is put back to [Created] by the
    status update, a change that is not in the table and moves backward,
    and the answer is 200. *)
Lemma updateOrderStatus_moves_backward :
  let delivered := fst (updateOrderStatus "o1" Delivered 5 [Sample.order]) in
  let after := updateOrderStatus "o1" Created 9 delivered in
  map Order.status delivered = [Delivered] /\
  transition Delivered Created = false /\
  precedes Created Delivered /\
  (exists o, snd after = Res 200 (Data o)) /\
  map Order.status (fst after) = [Created].
Proof.
  cbv zeta. split; [reflexivity|]. split; [reflexivity|]. split.
  - apply (precedes_trans Created AwaitingPayment); [reflexivity|].
    apply (precedes_trans AwaitingPayment Paid); [reflexivity|].
    apply (precedes_trans Paid Processing); [reflexivity|].
    now apply precedes_step.
  - split; [eexists|]; reflexivity.
Qed.

(** C7, as amended: the mark-delivered action, which the route reserves to
    an admin, is guarded by nothing else: for every existing order, paid or
    not, it sets [isDelivered], [deliveredAt] and the status [Delivered],
    and leaves [isPaid] as it was. *)
Theorem updateOrderToDelivered_any_order (i : ObjectId) (now : Z)
    (orders : list Order.t) (order : Order.t) :
  Order.findById orders i = Some order ->
  middleware PUT_orders_id_deliver = [protect; authorize "admin"] /\
  exists db updated,
    updateOrderToDelivered i now orders = (db, Res 200 (Data updated)) /\
    Order.findById db i = Some updated /\
    Order.isDelivered updated = true /\
    Order.deliveredAt updated = Some now /\
    Order.status updated = Delivered /\
    Order.isPaid updated = Order.isPaid order /\
    Order.paidAt updated = Order.paidAt order.
Proof.
  intros Hfind. split; [reflexivity|].
  unfold updateOrderToDelivered. rewrite Hfind.
  eexists. eexists. split; [reflexivity|].
  split; [|repeat split].
  now apply (save_found orders i order
               (fun o => Order.setStatus Delivered (Order.markDelivered now o))).
Qed.

Lemma updateOrderToDelivered_any_order_witness :
  middleware PUT_orders_id_deliver = [protect; authorize "admin"] /\
  exists db updated,
    updateOrderToDelivered "o1" 5 [Sample.order] = (db, Res 200 (Data updated)) /\
    Order.findById db "o1" = Some updated /\
    Order.isDelivered updated = true /\
    Order.deliveredAt updated = Some 5 /\
    Order.status updated = Delivered /\
    Order.isPaid updated = Order.isPaid Sample.order /\
    Order.paidAt updated = Order.paidAt Sample.order.
Proof.
  apply (updateOrderToDelivered_any_order "o1" 5 [Sample.order] Sample.order).
  reflexivity.
Defined.

(** C7, as stated, fails: the sample order, never paid, is marked
    delivered. *)
Lemma updateOrderToDelivered_unpaid :
  let after := updateOrderToDelivered "o1" 5 [Sample.order] in
  Order.isPaid Sample.order = false /\ Order.paidAt Sample.order = None /\
  Order.status Sample.order = Created /\
  (exists o, snd after = Res 200 (Data o)) /\
  map Order.isDelivered (fst after) = [true] /\
  map Order.isPaid (fst after) = [false] /\
  map Order.status (fst after) = [Delivered].
Proof.
  cbv zeta. repeat split. eexists. reflexivity.
Qed.

(** ** The generic update *)



(** The owner of the sample order rewrites its total to 1, marks it paid
    and delivered, all in one PUT. *)
Example updateOrder_sample :
  map (fun o => (Order.totalPrice o, Order.isPaid o, Order.status o))
    (fst (updateOrder (fun _ => true) Sample.alice "o1" Sample.overwrite [Sample.order]))
  = [(1, true, Delivered)].
Proof. reflexivity. Qed.

(** * Further properties of the controllers *)

(** ** Writes of one document *)

Section OneWrite.
Variables (filter : Order.t -> bool) (update : Order.t -> Order.t).

(** A write either finds no document and changes nothing, or rewrites the
    first document that matches and nothing else. *)
Lemma updateOne_shape (orders : list Order.t) :
  ((forall o, In o orders -> filter o = false) /\
   Order.updateOne filter update orders = (orders, false))
  \/
  (exists pre o post,
     orders = (pre ++ o :: post)%list /\
     (forall x, In x pre -> filter x = false) /\
     filter o = true /\
     Order.updateOne filter update orders
     = ((pre ++ update o :: post)%list, true)).
Proof.
  induction orders as [|x rest IH].
  - left. split; [intros o []|reflexivity].
  - destruct (filter x) eqn:E.
    + right. exists [], x, rest. simpl. rewrite E.
      repeat split; auto. intros y [].
    + destruct IH as [[Hnone Heq] | (pre & o & post & -> & Hpre & Ho & Heq)].
      * left. split.
        -- intros o [<-|Ho]; auto.
        -- simpl. now rewrite E, Heq.
      * right. exists (x :: pre), o, post. simpl. rewrite E, Heq.
        repeat split; auto. intros y [<-|Hy]; auto.
Qed.

Lemma updateOne_Forall2 (R : Order.t -> Order.t -> Prop) (orders : list Order.t) :
  (forall o, R o o) ->
  (forall o, filter o = true -> R o (update o)) ->
  Forall2 R orders (fst (Order.updateOne filter update orders)).
Proof.
  intros Hrefl Hupd.
  assert (Hsame : forall l, Forall2 R l l) by (induction l; constructor; auto).
  induction orders as [|x rest IH]; simpl; [constructor|].
  destruct (filter x) eqn:E; simpl.
  - constructor; auto.
  - destruct (Order.updateOne filter update rest). constructor; auto.
Qed.
End OneWrite.

(** ** Who may pay, and when *)

(** Whatever answer [confirmPayment] gives with [res.status(..).json], it
    is the 200 of a successful save. *)
Lemma confirmPayment_ok_inv (stripe : Stripe.t) (user : User.t)
    (orderId : ObjectId) (paymentId : string) (now : Z)
    (orders db : list Order.t) (status : Z) (body : Body) :
  confirmPayment stripe user orderId paymentId now orders = (db, Res status body) ->
  exists pre post o paymentIntent,
    orders = (pre ++ o :: post)%list /\
    (forall x, In x pre -> Order.byId orderId x = false) /\
    Order.byId orderId o = true /\
    Order.user o = User.id user /\
    Stripe.paymentIntents_retrieve stripe paymentId = inr paymentIntent /\
    PaymentIntent.status paymentIntent = "succeeded" /\
    db = (pre ++ Order.markPaid now (confirmResult user paymentIntent) o :: post)%list /\
    status = 200 /\
    body = Data (Order.markPaid now (confirmResult user paymentIntent) o).
Proof.
  unfold confirmPayment, confirmLoad, confirmVerify, notFound.
  destruct (Order.findById orders orderId) as [o|] eqn:Hfind; [|discriminate].
  destruct (String.eqb (Order.user o) (User.id user)) eqn:Hu; simpl; [|discriminate].
  destruct (Stripe.paymentIntents_retrieve stripe paymentId) as [m|paymentIntent];
    [discriminate|].
  destruct (String.eqb (PaymentIntent.status paymentIntent) "succeeded") eqn:Hs;
    simpl; [|discriminate].
  unfold confirmSave, confirmWrite, Order.save. intros H. injection H as <- <- <-.
  destruct (findById_split _ _ _ Hfind) as (pre & post & -> & Hpre & Ho).
  exists pre, post, o, paymentIntent.
  apply String.eqb_eq in Hu, Hs.
  assert (Hid : Order._id o = orderId) by now apply String.eqb_eq.
  rewrite Hid, updateOne_first_match by assumption.
  repeat split; auto.
Qed.

(** X1: somebody who is not the owner of an order, admin or not, is
    refused by both payment endpoints: no gateway call is made for a
    payment intent and a confirmation leaves the collection as it was. *)
Theorem payments_owner_only (stripe : Stripe.t) (user : User.t)
    (orderId : ObjectId) (paymentId : string) (now : Z)
    (products : list Product.t) (orders : list Order.t) (order : Order.t) :
  Order.findById orders orderId = Some order ->
  Order.user order <> User.id user ->
  createPaymentIntent stripe user orderId products orders
  = ([], Next (ErrorResponse "Not authorized to pay for this order" 401)) /\
  confirmPayment stripe user orderId paymentId now orders
  = (orders, Next (ErrorResponse "Not authorized to update this order" 401)).
Proof.
  intros Hfind Hother. apply String.eqb_neq in Hother.
  unfold createPaymentIntent, confirmPayment, confirmLoad.
  now rewrite Hfind, Hother.
Qed.

Lemma payments_owner_only_witness :
  let admin := {| User.id := "u9"; User.email := "root@example.com";
                  User.role := "admin" |} in
  createPaymentIntent Sample.stripe admin "o1" [Sample.widget 10] [Sample.order]
  = ([], Next (ErrorResponse "Not authorized to pay for this order" 401)) /\
  confirmPayment Sample.stripe admin "o1" "pi_1" 100 [Sample.order]
  = ([Sample.order], Next (ErrorResponse "Not authorized to update this order" 401)).
Proof.
  intros admin.
  apply (payments_owner_only Sample.stripe admin "o1" "pi_1" 100
           [Sample.widget 10] [Sample.order] Sample.order).
  - reflexivity.
  - simpl. discriminate.
Defined.

(** X2: unless the gateway returns the intent with status [succeeded], a
    confirmation writes nothing and hands an error to the error handler. *)
Theorem confirmPayment_requires_succeeded (stripe : Stripe.t) (user : User.t)
    (orderId : ObjectId) (paymentId : string) (now : Z) (orders : list Order.t) :
  (forall paymentIntent,
     Stripe.paymentIntents_retrieve stripe paymentId = inr paymentIntent ->
     PaymentIntent.status paymentIntent <> "succeeded") ->
  exists e,
    confirmPayment stripe user orderId paymentId now orders = (orders, Next e).
Proof.
  intros Hnot.
  destruct (confirmPayment stripe user orderId paymentId now orders)
    as [db [status body|e]] eqn:E.
  - apply confirmPayment_ok_inv in E.
    destruct E as (_ & _ & _ & pi & _ & _ & _ & _ & Hr & Hs & _).
    now destruct (Hnot pi Hr).
  - exists e. f_equal.
    destruct (confirmPayment_cases stripe user orderId paymentId orders)
      as [[response Hstop] | (pre & post & o & pi & -> & Hpre & Ho & Hu & Hv)].
    + rewrite Hstop in E. now injection E as <- _.
    + rewrite (confirmPayment_success stripe user orderId paymentId now
                 pre post o pi Hpre Ho Hu Hv) in E. discriminate E.
Qed.

Lemma confirmPayment_requires_succeeded_witness :
  let pending :=
    {| Stripe.paymentIntents_create := Stripe.paymentIntents_create Sample.stripe;
       Stripe.paymentIntents_retrieve :=
         fun id => inr {| PaymentIntent.id := id;
                          PaymentIntent.status := "requires_payment_method";
                          PaymentIntent.created := 7; PaymentIntent.amount := 1300;
                          PaymentIntent.client_secret := "cs" |};
       Stripe.webhooks_constructEvent := Stripe.webhooks_constructEvent Sample.stripe |} in
  exists e,
    confirmPayment pending Sample.alice "o1" "pi_1" 100 [Sample.order]
    = ([Sample.order], Next e).
Proof.
  intros pending.
  apply (confirmPayment_requires_succeeded pending Sample.alice "o1" "pi_1" 100
           [Sample.order]).
  intros paymentIntent H. injection H as <-. simpl. discriminate.
Defined.

(** X3: a confirmation touches one order at most, the one asked for, and
    on it only [isPaid], [paidAt] and [paymentResult]. *)
Theorem confirmPayment_frame (stripe : Stripe.t) (user : User.t)
    (orderId : ObjectId) (paymentId : string) (now : Z) (orders : list Order.t) :
  Forall2
    (fun o o' =>
       o' = o \/
       (Order._id o = orderId /\ exists pr, o' = Order.markPaid now pr o))
    orders (fst (confirmPayment stripe user orderId paymentId now orders)).
Proof.
  set (R := fun o o' : Order.t =>
              o' = o \/
              (Order._id o = orderId /\ exists pr, o' = Order.markPaid now pr o)).
  assert (Hsame : forall l, Forall2 R l l).
  { induction l; constructor; auto. now left. }
  destruct (confirmPayment_cases stripe user orderId paymentId orders)
    as [[response Hstop] | (pre & post & o & pi & -> & Hpre & Ho & Hu & Hv)].
  - rewrite Hstop. apply Hsame.
  - rewrite (confirmPayment_success stripe user orderId paymentId now
               pre post o pi Hpre Ho Hu Hv).
    simpl. apply Forall2_app; [apply Hsame|]. constructor; [|apply Hsame].
    right. split; [now apply String.eqb_eq | eexists; reflexivity].
Qed.

(** X4: directly after a confirmation has answered 200, on the collection
    as that call left it, a payment intent requested for that order by the
    user who confirmed is refused with 400 [Order already paid] and the
    gateway is not called. *)
Theorem confirmed_order_refuses_intent (stripe stripe' : Stripe.t) (user : User.t)
    (orderId : ObjectId) (paymentId : string) (now : Z)
    (products : list Product.t) (orders db : list Order.t) (o : Order.t) :
  confirmPayment stripe user orderId paymentId now orders = (db, Res 200 (Data o)) ->
  createPaymentIntent stripe' user orderId products db
  = ([], Next (ErrorResponse "Order already paid" 400)).
Proof.
  intros H. apply confirmPayment_ok_inv in H.
  destruct H as (pre & post & x & pi & -> & Hpre & Hx & Hu & _ & _ & -> & _ & _).
  unfold createPaymentIntent.
  rewrite (findById_first_match pre post orderId
             (Order.markPaid now (confirmResult user pi) x) Hpre Hx).
  simpl. now rewrite Hu, String.eqb_refl.
Qed.

Lemma confirmed_order_refuses_intent_witness :
  createPaymentIntent Sample.stripe Sample.alice "o1" [Sample.widget 10]
    (fst (confirmPayment Sample.stripe Sample.alice "o1" "pi_1" 100 [Sample.order]))
  = ([], Next (ErrorResponse "Order already paid" 400)).
Proof.
  apply (confirmed_order_refuses_intent Sample.stripe Sample.stripe Sample.alice
           "o1" "pi_1" 100 [Sample.widget 10] [Sample.order] _
           (Order.markPaid 100
              (confirmResult Sample.alice (Sample.intent "pi_1" 1300)) Sample.order)).
  reflexivity.
Defined.

(** X5: [createPaymentIntent] calls the gateway at most once, and only for
    an unpaid order of the requester all of whose products still exist;
    the call is in dollars, for one hundred times the total that the
    reduce computes over the catalog. *)
Theorem createPaymentIntent_calls (stripe : Stripe.t) (user : User.t)
    (orderId : ObjectId) (products : list Product.t) (orders : list Order.t) :
  let calls := fst (createPaymentIntent stripe user orderId products orders) in
  calls = [] \/
  exists order total,
    Order.findById orders orderId = Some order /\
    Order.user order = User.id user /\
    Order.isPaid order = false /\
    reduceTotal products (Order.items order) 0 = Some total /\
    calls = [{| Stripe.amount := total * 100; Stripe.currency := "usd";
                Stripe.metadata := [("integration_check", "accept_a_payment")] |}].
Proof.
  unfold createPaymentIntent.
  destruct (Order.findById orders orderId) as [order|]; [|now left].
  destruct (String.eqb (Order.user order) (User.id user)) eqn:Hu; [|now left].
  destruct (Order.isPaid order) eqn:Hp; [now left|].
  destruct (reduceTotal products (Order.items order) 0) as [total|] eqn:Ht;
    [|now left].
  right. exists order, total. apply String.eqb_eq in Hu.
  repeat split; auto.
  simpl. now destruct (Stripe.paymentIntents_create stripe _).
Qed.

Lemma reduceTotal_at_snapshot (products : list Product.t) :
  forall items total,
    (forall item, In item items ->
       exists product,
         Product.findById products (OrderItem.product item) = Some product /\
         Product.price product = OrderItem.price item) ->
    reduceTotal products items total = Some (frozenTotal items total).
Proof.
  induction items as [|item rest IH]; intros total Hsame; [reflexivity|].
  destruct (Hsame item (or_introl eq_refl)) as (product & Hfound & Hprice).
  cbn [reduceTotal frozenTotal fold_left]. rewrite Hfound, Hprice.
  apply IH. intros x Hx. apply Hsame. now right.
Qed.

(** X6: while every product of an unpaid order still has the price frozen
    in the order's items, the amount of the owner's payment intent is what
    the handler's own sum gives on the frozen prices: price times quantity
    added up from the left, starting at 0, times one hundred.  The order's
    tax, shipping and stored total enter nowhere. *)
Theorem createPaymentIntent_at_snapshot (stripe : Stripe.t) (user : User.t)
    (orderId : ObjectId) (products : list Product.t) (orders : list Order.t)
    (order : Order.t) :
  Order.findById orders orderId = Some order ->
  Order.user order = User.id user ->
  Order.isPaid order = false ->
  (forall item, In item (Order.items order) ->
     exists product,
       Product.findById products (OrderItem.product item) = Some product /\
       Product.price product = OrderItem.price item) ->
  map Stripe.amount (fst (createPaymentIntent stripe user orderId products orders))
  = [frozenTotal (Order.items order) 0 * 100].
Proof.
  intros Hfind Hu Hp Hsame. unfold createPaymentIntent.
  rewrite Hfind, Hu, String.eqb_refl, Hp. cbn [negb].
  rewrite (reduceTotal_at_snapshot products _ 0 Hsame).
  now destruct (Stripe.paymentIntents_create stripe _).
Qed.

Lemma createPaymentIntent_at_snapshot_witness :
  map Stripe.amount
    (fst (createPaymentIntent Sample.stripe Sample.alice "o1"
            [Sample.widget 10] [Sample.order]))
  = [frozenTotal (Order.items Sample.order) 0 * 100].
Proof.
  apply (createPaymentIntent_at_snapshot Sample.stripe Sample.alice "o1"
           [Sample.widget 10] [Sample.order] Sample.order); try reflexivity.
  intros item [<-|[]]. exists (Sample.widget 10). split; reflexivity.
Defined.

(** ** Marking paid without the gateway *)

(** X7: PUT /orders/:id/pay marks an order paid for its owner, or an
    admin, on the word of the request body alone: with a [payer] in the
    body the order is stored paid at the current time with the body's
    reference, and nothing else about it changes. *)
Theorem updateOrderToPaid_on_request (user : User.t) (i : ObjectId)
    (body : PayBody.t) (now : Z) (orders : list Order.t) (order : Order.t)
    (email : string) :
  Order.findById orders i = Some order ->
  Order.user order = User.id user \/ User.role user = "admin" ->
  PayBody.payer body = Some email ->
  let paid :=
    Order.markPaid now
      {| PaymentResult.id := PayBody.id body;
         PaymentResult.status := PayBody.status body;
         PaymentResult.update_time := PayBody.update_time body;
         PaymentResult.email_address := email |} order in
  exists db,
    updateOrderToPaid user i body now orders = (db, Res 200 (Data paid)) /\
    Order.findById db i = Some paid.
Proof.
  intros Hfind Hallowed Hpayer paid.
  assert (Hok : ownerOrAdmin order user = true).
  { unfold ownerOrAdmin. apply orb_true_iff.
    destruct Hallowed as [H|H]; [left|right]; rewrite H; apply String.eqb_refl. }
  unfold updateOrderToPaid. rewrite Hfind, Hok, Hpayer. simpl.
  eexists. split; [reflexivity|].
  now apply save_found.
Qed.

Lemma updateOrderToPaid_on_request_witness :
  let body := {| PayBody.id := "made-up"; PayBody.status := "COMPLETED";
                 PayBody.update_time := 8; PayBody.payer := Some "a@b.c" |} in
  let paid :=
    Order.markPaid 200
      {| PaymentResult.id := "made-up"; PaymentResult.status := "COMPLETED";
         PaymentResult.update_time := 8; PaymentResult.email_address := "a@b.c" |}
      Sample.order in
  exists db,
    updateOrderToPaid Sample.alice "o1" body 200 [Sample.order]
    = (db, Res 200 (Data paid)) /\
    Order.findById db "o1" = Some paid.
Proof.
  intros body paid.
  apply (updateOrderToPaid_on_request Sample.alice "o1" body 200 [Sample.order]
           Sample.order "a@b.c").
  - reflexivity.
  - left. reflexivity.
  - reflexivity.
Defined.

(** X8: a user who neither owns an order nor is an admin is refused with
    401 by PUT /orders/:id and by PUT /orders/:id/pay, whatever the body,
    and the collection is left as it was. *)
Theorem orders_owner_or_admin_only (validators : UpdateBody.t -> bool)
    (user : User.t) (i : ObjectId) (update : UpdateBody.t) (pay : PayBody.t)
    (now : Z) (orders : list Order.t) (order : Order.t) :
  Order.findById orders i = Some order ->
  Order.user order <> User.id user ->
  User.role user <> "admin" ->
  updateOrder validators user i update orders
  = (orders, notAuthorizedTo "update" user) /\
  updateOrderToPaid user i pay now orders
  = (orders, notAuthorizedTo "update" user).
Proof.
  intros Hfind Hother Hrole.
  apply String.eqb_neq in Hother, Hrole.
  unfold updateOrder, updateOrderToPaid, ownerOrAdmin.
  now rewrite Hfind, Hother, Hrole.
Qed.

Lemma orders_owner_or_admin_only_witness :
  let bob := {| User.id := "u2"; User.email := "bob@example.com";
                User.role := "user" |} in
  let pay := {| PayBody.id := "x"; PayBody.status := "COMPLETED";
                PayBody.update_time := 8; PayBody.payer := Some "bob@example.com" |} in
  updateOrder (fun _ => true) bob "o1" Sample.overwrite [Sample.order]
  = ([Sample.order], notAuthorizedTo "update" bob) /\
  updateOrderToPaid bob "o1" pay 200 [Sample.order]
  = ([Sample.order], notAuthorizedTo "update" bob).
Proof.
  intros bob pay.
  apply (orders_owner_or_admin_only (fun _ => true) bob "o1" Sample.overwrite pay 200
           [Sample.order] Sample.order).
  - reflexivity.
  - simpl. discriminate.
  - simpl. discriminate.
Defined.

(** ** More on the webhook *)

(** X9: a verified event of any type other than
    [payment_intent.succeeded], a failed payment included, is acknowledged
    with [{received: true}] and changes no order. *)
Theorem webhook_other_events (stripe : Stripe.t) (secret : option string)
    (req : WebhookRequest.t) (now : Z) (orders : list Order.t) (event : Event.t) :
  Stripe.webhooks_constructEvent stripe (WebhookRequest.body req)
    (WebhookRequest.stripe_signature req) secret = inr event ->
  Event.type event <> "payment_intent.succeeded" ->
  webhook stripe secret req now orders = (orders, Res 200 Received).
Proof.
  intros Hsig Htype. apply String.eqb_neq in Htype.
  unfold webhook, webhookWrite. now rewrite Hsig, Htype.
Qed.

Lemma webhook_other_events_witness :
  let failed := {| WebhookRequest.body := "payment_intent.payment_failed";
                   WebhookRequest.stripe_signature := Some "good" |} in
  let db := [UpdateBody.assign Sample.reference Sample.order] in
  webhook Sample.stripe None failed 200 db = (db, Res 200 Received).
Proof.
  intros failed db.
  apply (webhook_other_events Sample.stripe None failed 200 db
           {| Event.type := "payment_intent.payment_failed";
              Event.object := Sample.intent "pi_1" 1 |}).
  - reflexivity.
  - discriminate.
Defined.

(** X10: the webhook writes one order at most.  Either the collection is
    as before, or the event is a verified success and the first order that
    records its intent id has been given [isPaid], [paidAt] and the event's
    gateway status, every other order and every other path staying put. *)
Theorem webhook_frame (stripe : Stripe.t) (secret : option string)
    (req : WebhookRequest.t) (now : Z) (orders : list Order.t) :
  fst (webhook stripe secret req now orders) = orders \/
  exists event pre o post,
    Stripe.webhooks_constructEvent stripe (WebhookRequest.body req)
      (WebhookRequest.stripe_signature req) secret = inr event /\
    Event.type event = "payment_intent.succeeded" /\
    orders = (pre ++ o :: post)%list /\
    (forall x, In x pre ->
       Order.byPaymentResultId (PaymentIntent.id (Event.object event)) x = false) /\
    Order.byPaymentResultId (PaymentIntent.id (Event.object event)) o = true /\
    fst (webhook stripe secret req now orders)
    = (pre ++ Order.setPaidStatus now (PaymentIntent.status (Event.object event)) o
           :: post)%list.
Proof.
  unfold webhook, webhookWrite.
  destruct (Stripe.webhooks_constructEvent _ _ _ _) as [message|event] eqn:Hsig;
    [now left|].
  destruct (String.eqb (Event.type event) "payment_intent.succeeded") eqn:Htype;
    [|now left].
  simpl.
  destruct (updateOne_shape
              (Order.byPaymentResultId (PaymentIntent.id (Event.object event)))
              (Order.setPaidStatus now (PaymentIntent.status (Event.object event)))
              orders)
    as [[_ Heq] | (pre & o & post & Horders & Hpre & Ho & Heq)]; rewrite Heq; simpl.
  - now left.
  - right. exists event, pre, o, post. apply String.eqb_eq in Htype.
    repeat split; auto.
Qed.

(** X11: delivering a webhook request again has the effect of delivering
    it once at the later time: a redelivered success event changes nothing
    but [paidAt]. *)
Theorem webhook_redelivery (stripe : Stripe.t) (secret : option string)
    (req : WebhookRequest.t) (t1 t2 : Z) (orders : list Order.t) :
  let once := webhook stripe secret req t1 orders in
  let twice := webhook stripe secret req t2 (fst once) in
  twice = webhook stripe secret req t2 orders /\
  Forall2 sameButPaidAt (fst once) (fst twice).
Proof.
  cbv zeta. unfold webhook, webhookWrite.
  destruct (Stripe.webhooks_constructEvent _ _ _ _) as [message|event];
    [split; [reflexivity|apply Forall2_sameButPaidAt_refl]|].
  destruct (String.eqb (Event.type event) "payment_intent.succeeded");
    [|split; [reflexivity|apply Forall2_sameButPaidAt_refl]].
  set (pid := PaymentIntent.id (Event.object event)).
  set (st := PaymentIntent.status (Event.object event)).
  destruct (updateOne_shape (Order.byPaymentResultId pid)
              (Order.setPaidStatus t1 st) orders)
    as [[Hnone Heq] | (pre & o & post & -> & Hpre & Ho & Heq)]; rewrite Heq; simpl.
  - split; [reflexivity|].
    rewrite updateOne_no_match by assumption. apply Forall2_sameButPaidAt_refl.
  - assert (Ho' : Order.byPaymentResultId pid (Order.setPaidStatus t1 st o) = true).
    { revert Ho. unfold Order.byPaymentResultId. simpl.
      now destruct (Order.paymentResult o). }
    rewrite (updateOne_first_match _ (Order.setPaidStatus t2 st) pre post _ Hpre Ho').
    rewrite (updateOne_first_match _ (Order.setPaidStatus t2 st) pre post _ Hpre Ho).
    assert (Hagain : Order.setPaidStatus t2 st (Order.setPaidStatus t1 st o)
                     = Order.setPaidStatus t2 st o).
    { unfold Order.setPaidStatus. simpl. now destruct (Order.paymentResult o). }
    simpl. rewrite Hagain. split; [reflexivity|].
    apply Forall2_app; [apply Forall2_sameButPaidAt_refl|].
    constructor; [|apply Forall2_sameButPaidAt_refl].
    repeat split.
Qed.

(** ** More on status and delivery *)

(** X12: a status update to anything but [Delivered] writes the status and
    nothing else, so an order once marked delivered keeps [isDelivered]
    and [deliveredAt] when its status is moved elsewhere. *)
Theorem updateOrderStatus_keeps_delivery (i : ObjectId) (status : Status)
    (now : Z) (orders : list Order.t) (order : Order.t) :
  Order.findById orders i = Some order ->
  status <> Delivered ->
  exists db,
    updateOrderStatus i status now orders
    = (db, Res 200 (Data (Order.setStatus status order))) /\
    Order.findById db i = Some (Order.setStatus status order) /\
    Order.isDelivered (Order.setStatus status order) = Order.isDelivered order /\
    Order.deliveredAt (Order.setStatus status order) = Order.deliveredAt order.
Proof.
  intros Hfind Hs.
  assert (E : Status_eqb status Delivered = false) by now destruct status.
  unfold updateOrderStatus. rewrite Hfind, E.
  eexists. split; [reflexivity|]. split; [|split; reflexivity].
  now apply (save_found orders i order (fun o => Order.setStatus status o)).
Qed.

Lemma updateOrderStatus_keeps_delivery_witness :
  let delivered := Order.setStatus Delivered (Order.markDelivered 5 Sample.order) in
  exists db,
    updateOrderStatus "o1" Cancelled 9 [delivered]
    = (db, Res 200 (Data (Order.setStatus Cancelled delivered))) /\
    Order.findById db "o1" = Some (Order.setStatus Cancelled delivered) /\
    Order.isDelivered (Order.setStatus Cancelled delivered) = Order.isDelivered delivered /\
    Order.deliveredAt (Order.setStatus Cancelled delivered) = Order.deliveredAt delivered.
Proof.
  intros delivered.
  apply (updateOrderStatus_keeps_delivery "o1" Cancelled 9 [delivered] delivered).
  - reflexivity.
  - discriminate.
Defined.

(** X13: the two ways of marking an order delivered agree: PUT
    /orders/:id/deliver does what the status update does when asked for
    [Delivered], to the collection and in its answer. *)
Theorem deliver_is_status_update (i : ObjectId) (now : Z) (orders : list Order.t) :
  updateOrderToDelivered i now orders = updateOrderStatus i Delivered now orders.
Proof.
  unfold updateOrderToDelivered, updateOrderStatus.
  destruct (Order.findById orders i) as [order|]; [|reflexivity].
  reflexivity.
Qed.

(** ** More on the generic update *)

Lemma assign_twice (body : UpdateBody.t) (o : Order.t) :
  UpdateBody.assign body (UpdateBody.assign body o) = UpdateBody.assign body o.
Proof.
  unfold UpdateBody.assign. simpl.
  destruct body as [u it sa pm tp sp tot ip pa pr idl da st]; simpl.
  destruct u, it, sa, pm, tp, sp, tot, ip, pa, pr, idl, da, st; reflexivity.
Qed.

Lemma updateOrder_ok (validators : UpdateBody.t -> bool) (user : User.t)
    (i : ObjectId) (body : UpdateBody.t) (pre post : list Order.t) (o : Order.t) :
  (forall x, In x pre -> Order.byId i x = false) ->
  Order.byId i o = true ->
  ownerOrAdmin o user = true ->
  validators body = true ->
  updateOrder validators user i body (pre ++ o :: post)
  = ((pre ++ UpdateBody.assign body o :: post)%list,
     Res 200 (Data (UpdateBody.assign body o))).
Proof.
  intros Hpre Ho Hok Hvalid. unfold updateOrder.
  rewrite (findById_first_match pre post i o Hpre Ho), Hok, Hvalid. simpl.
  now rewrite updateOne_first_match.
Qed.

(** X14: PUT /orders/:id with a body that does not name [user] is
    idempotent: sending it twice has the effect and the answer of sending
    it once. *)
Theorem updateOrder_twice (validators : UpdateBody.t -> bool) (user : User.t)
    (i : ObjectId) (body : UpdateBody.t) (orders : list Order.t) :
  UpdateBody.user body = None ->
  updateOrder validators user i body
    (fst (updateOrder validators user i body orders))
  = updateOrder validators user i body orders.
Proof.
  intros Hkeep.
  assert (Hstop : forall response,
             updateOrder validators user i body orders = (orders, response) ->
             updateOrder validators user i body
               (fst (updateOrder validators user i body orders))
             = updateOrder validators user i body orders).
  { intros response E. rewrite E. simpl. now rewrite E. }
  destruct (Order.findById orders i) as [o|] eqn:Hfind;
    [|eapply Hstop; unfold updateOrder; now rewrite Hfind].
  destruct (ownerOrAdmin o user) eqn:Hok;
    [|eapply Hstop; unfold updateOrder; now rewrite Hfind, Hok].
  destruct (validators body) eqn:Hvalid;
    [|eapply Hstop; unfold updateOrder; now rewrite Hfind, Hok, Hvalid].
  destruct (findById_split _ _ _ Hfind) as (pre & post & -> & Hpre & Ho).
  rewrite (updateOrder_ok validators user i body pre post o Hpre Ho Hok Hvalid).
  simpl fst.
  rewrite (updateOrder_ok validators user i body pre post
             (UpdateBody.assign body o) Hpre Ho).
  - now rewrite assign_twice.
  - revert Hok. unfold ownerOrAdmin. simpl. now rewrite Hkeep.
  - assumption.
Qed.

Lemma updateOrder_twice_witness :
  updateOrder (fun _ => true) Sample.alice "o1" Sample.overwrite
    (fst (updateOrder (fun _ => true) Sample.alice "o1" Sample.overwrite [Sample.order]))
  = updateOrder (fun _ => true) Sample.alice "o1" Sample.overwrite [Sample.order].
Proof.
  apply (updateOrder_twice (fun _ => true) Sample.alice "o1" Sample.overwrite
           [Sample.order]).
  reflexivity.
Defined.

(** X15: the owner of an order who is not an admin can give the order
    away through PUT /orders/:id, and is locked out from then on: after a
    body naming another [user] has been stored, every further update by
    the former owner is refused with 401. *)
Theorem updateOrder_handover (validators : UpdateBody.t -> bool) (user : User.t)
    (i : ObjectId) (body next : UpdateBody.t) (orders : list Order.t)
    (order : Order.t) (other : ObjectId) :
  Order.findById orders i = Some order ->
  Order.user order = User.id user ->
  User.role user <> "admin" ->
  validators body = true ->
  UpdateBody.user body = Some other ->
  other <> User.id user ->
  exists db,
    updateOrder validators user i body orders
    = (db, Res 200 (Data (UpdateBody.assign body order))) /\
    Order.user (UpdateBody.assign body order) = other /\
    updateOrder validators user i next db = (db, notAuthorizedTo "update" user).
Proof.
  intros Hfind Hown Hrole Hvalid Hbody Hother.
  destruct (findById_split _ _ _ Hfind) as (pre & post & -> & Hpre & Ho).
  assert (Hok : ownerOrAdmin order user = true).
  { unfold ownerOrAdmin. now rewrite Hown, String.eqb_refl. }
  rewrite (updateOrder_ok validators user i body pre post order Hpre Ho Hok Hvalid).
  eexists. split; [reflexivity|]. split; [simpl; now rewrite Hbody|].
  unfold updateOrder.
  rewrite (findById_first_match pre post i (UpdateBody.assign body order) Hpre Ho).
  unfold ownerOrAdmin. simpl. rewrite Hbody. simpl.
  apply String.eqb_neq in Hother, Hrole. now rewrite Hother, Hrole.
Qed.

Lemma updateOrder_handover_witness :
  let give :=
    {| UpdateBody.user := Some "u2"; UpdateBody.items := None;
       UpdateBody.shippingAddress := None; UpdateBody.paymentMethod := None;
       UpdateBody.taxPrice := None; UpdateBody.shippingPrice := None;
       UpdateBody.totalPrice := None; UpdateBody.isPaid := None;
       UpdateBody.paidAt := None; UpdateBody.paymentResult := None;
       UpdateBody.isDelivered := None; UpdateBody.deliveredAt := None;
       UpdateBody.status := None |} in
  exists db,
    updateOrder (fun _ => true) Sample.alice "o1" give [Sample.order]
    = (db, Res 200 (Data (UpdateBody.assign give Sample.order))) /\
    Order.user (UpdateBody.assign give Sample.order) = "u2" /\
    updateOrder (fun _ => true) Sample.alice "o1" Sample.overwrite db
    = (db, notAuthorizedTo "update" Sample.alice).
Proof.
  intros give.
  apply (updateOrder_handover (fun _ => true) Sample.alice "o1" give
           Sample.overwrite [Sample.order] Sample.order "u2");
    try reflexivity; simpl; discriminate.
Defined.

(** ** Creating orders *)


(** ** Reading orders *)

Lemma Account_findById_id (users : list Account.t) (i : ObjectId) (u : Account.t) :
  Account.findById users i = Some u -> Account._id u = i.
Proof.
  induction users as [|x rest IH]; simpl; [discriminate|].
  destruct (String.eqb (Account._id x) i) eqn:E; [|exact IH].
  intros H. injection H as <-. now apply String.eqb_eq.
Qed.

(** X19: GET /orders/:id hands an order out only to its owner or to an
    admin: whenever it answers with data, the data is the stored order of
    that id with its owner's account and its products populated, and the
    requester owns it or has the admin role. *)
Theorem getOrder_access (user : User.t) (i : ObjectId) (users : list Account.t)
    (products : list Product.t) (orders : list Order.t) (data : Populated.t) :
  getOrder user i users products orders = inr data ->
  Order.findById orders i = Some (Populated.order data) /\
  (Order.user (Populated.order data) = User.id user \/ User.role user = "admin") /\
  Populated.user data
  = Some (Account.findById users (Order.user (Populated.order data))) /\
  Populated.products data = populateProducts products (Populated.order data).
Proof.
  unfold getOrder, notFound, notAuthorizedTo.
  destruct (Order.findById orders i) as [order|]; [|discriminate].
  destruct (Account.findById users (Order.user order)) as [owner|] eqn:Eo;
    [|discriminate].
  destruct (String.eqb (Account._id owner) (User.id user)) eqn:Eu;
    destruct (String.eqb (User.role user) "admin") eqn:Er; simpl;
    try discriminate; intros H; injection H as <-; simpl;
    apply Account_findById_id in Eo as Hid;
    repeat split; try (now rewrite Eo).
  - left. apply String.eqb_eq in Eu. congruence.
  - left. apply String.eqb_eq in Eu. congruence.
  - right. now apply String.eqb_eq.
Qed.

Lemma getOrder_access_witness :
  let users := [{| Account._id := "u1"; Account.name := "Alice";
                   Account.email := "alice@example.com" |}] in
  let data := {| Populated.order := Sample.order;
                 Populated.user := Some (Account.findById users "u1");
                 Populated.products := [Some (Sample.widget 20)] |} in
  Order.findById [Sample.order] "o1" = Some (Populated.order data) /\
  (Order.user (Populated.order data) = User.id Sample.alice
   \/ User.role Sample.alice = "admin") /\
  Populated.user data
  = Some (Account.findById users (Order.user (Populated.order data))) /\
  Populated.products data
  = populateProducts [Sample.widget 20] (Populated.order data).
Proof.
  intros users data.
  apply (getOrder_access Sample.alice "o1" users [Sample.widget 20]
           [Sample.order] data).
  reflexivity.
Defined.

(** X20: an order whose owner's account no longer exists cannot be read
    through GET /orders/:id by anybody, admins included: the ownership
    test throws before it looks at the role. *)
Theorem getOrder_owner_gone (user : User.t) (i : ObjectId) (users : list Account.t)
    (products : list Product.t) (orders : list Order.t) (order : Order.t) :
  Order.findById orders i = Some order ->
  Account.findById users (Order.user order) = None ->
  getOrder user i users products orders = inl (Next (Thrown "TypeError")).
Proof.
  intros Hfind Hgone. unfold getOrder. now rewrite Hfind, Hgone.
Qed.

Lemma getOrder_owner_gone_witness :
  let admin := {| User.id := "u9"; User.email := "root@example.com";
                  User.role := "admin" |} in
  getOrder admin "o1" [] [Sample.widget 10] [Sample.order]
  = inl (Next (Thrown "TypeError")).
Proof.
  intros admin.
  apply (getOrder_owner_gone admin "o1" [] [Sample.widget 10] [Sample.order]
           Sample.order); reflexivity.
Defined.

(** ** Deleting orders *)

Lemma findById_app (l1 l2 : list Order.t) (i : ObjectId) :
  Order.findById (l1 ++ l2) i
  = match Order.findById l1 i with
    | Some o => Some o
    | None => Order.findById l2 i
    end.
Proof.
  induction l1 as [|x rest IH]; simpl; [reflexivity|].
  now destruct (String.eqb (Order._id x) i).
Qed.

Lemma findById_absent (orders : list Order.t) (i : ObjectId) :
  ~ In i (map Order._id orders) -> Order.findById orders i = None.
Proof.
  induction orders as [|x rest IH]; simpl; intros Hnot; [reflexivity|].
  destruct (String.eqb (Order._id x) i) eqn:E.
  - apply String.eqb_eq in E. tauto.
  - apply IH. tauto.
Qed.

Lemma removeById_first_match (pre post : list Order.t) (i : ObjectId) (o : Order.t) :
  (forall x, In x pre -> Order.byId i x = false) ->
  Order.byId i o = true ->
  removeById i (pre ++ o :: post) = (pre ++ post)%list.
Proof.
  induction pre as [|x pre IH]; intros Hpre Ho; simpl.
  - now rewrite Ho.
  - rewrite (Hpre x (or_introl eq_refl)). f_equal. apply IH; [|assumption].
    intros y Hy. apply Hpre. now right.
Qed.

(** X22: deleting an order that exists answers 200, after which, ids being
    unique, the order can no longer be found, while every other order is
    found as before. *)
Theorem deleteOrder_removes (i : ObjectId) (orders : list Order.t) (order : Order.t) :
  NoDup (map Order._id orders) ->
  Order.findById orders i = Some order ->
  exists db,
    deleteOrder i orders = (db, inr tt) /\
    Order.findById db i = None /\
    (forall j, j <> i -> Order.findById db j = Order.findById orders j) /\
    S (List.length db) = List.length orders.
Proof.
  intros Hunique Hfind. unfold deleteOrder. rewrite Hfind.
  rewrite (findById_id _ _ _ Hfind).
  destruct (findById_split _ _ _ Hfind) as (pre & post & -> & Hpre & Ho).
  rewrite (removeById_first_match pre post i order Hpre Ho).
  eexists. split; [reflexivity|].
  assert (Hid : Order._id order = i) by now apply String.eqb_eq.
  assert (Hpre' : Order.findById pre i = None).
  { clear - Hpre. induction pre as [|x pre IH]; simpl; [reflexivity|].
    unfold Order.byId in Hpre. rewrite (Hpre x (or_introl eq_refl)).
    apply IH. intros y Hy. apply Hpre. now right. }
  split; [|split].
  - rewrite findById_app, Hpre'. apply findById_absent.
    rewrite map_app in Hunique. simpl in Hunique.
    apply NoDup_remove_2 in Hunique. rewrite Hid in Hunique.
    intros Hin. apply Hunique. apply in_or_app. now right.
  - intros j Hj. rewrite !findById_app. simpl.
    destruct (Order.findById pre j); [reflexivity|].
    assert (E : String.eqb (Order._id order) j = false).
    { apply String.eqb_neq. congruence. }
    now rewrite E.
  - rewrite !length_app. simpl. lia.
Qed.

Lemma deleteOrder_removes_witness :
  exists db,
    deleteOrder "o1" [Sample.order] = (db, inr tt) /\
    Order.findById db "o1" = None /\
    (forall j, j <> "o1" -> Order.findById db j = Order.findById [Sample.order] j) /\
    S (List.length db) = List.length [Sample.order].
Proof.
  apply (deleteOrder_removes "o1" [Sample.order] Sample.order).
  - simpl. constructor; [intros []|constructor].
  - reflexivity.
Defined.

(** ** The catalog *)







(** *** Top products *)

Lemma insertByRatings_perm (p : ProductDoc.t) (sorted : list ProductDoc.t) :
  Permutation (p :: sorted) (insertByRatings p sorted).
Proof.
  induction sorted as [|q rest IH]; simpl; [reflexivity|].
  destruct (Qle_bool _ _); [reflexivity|].
  rewrite perm_swap. now constructor.
Qed.

Lemma sortByRatings_perm (catalog : list ProductDoc.t) :
  Permutation catalog (sortByRatings catalog).
Proof.
  induction catalog as [|p rest IH]; simpl; [constructor|].
  rewrite <- insertByRatings_perm. now constructor.
Qed.

Lemma insertByRatings_sorted (p : ProductDoc.t) (sorted : list ProductDoc.t) :
  StronglySorted ratedAtLeast sorted ->
  StronglySorted ratedAtLeast (insertByRatings p sorted).
Proof.
  induction 1 as [|q rest Hrest IH Hq]; simpl.
  - constructor; constructor.
  - destruct (Qle_bool (ProductDoc.ratings q) (ProductDoc.ratings p)) eqn:E.
    + apply Qle_bool_iff in E.
      constructor; [now constructor|].
      constructor; [exact E|].
      eapply Forall_impl; [|exact Hq].
      intros x Hx. unfold ratedAtLeast in *. eapply Qle_trans; eassumption.
    + constructor; [exact IH|].
      assert (Hpq : ratedAtLeast q p).
      { unfold ratedAtLeast. apply Qlt_le_weak, Qnot_le_lt.
        intros H. apply Qle_bool_iff in H. congruence. }
      apply (Permutation_Forall (insertByRatings_perm p rest)).
      now constructor.
Qed.

Lemma sortByRatings_sorted (catalog : list ProductDoc.t) :
  StronglySorted ratedAtLeast (sortByRatings catalog).
Proof.
  induction catalog; simpl; [constructor|now apply insertByRatings_sorted].
Qed.

Lemma StronglySorted_app (l1 l2 : list ProductDoc.t) :
  StronglySorted ratedAtLeast (l1 ++ l2) ->
  StronglySorted ratedAtLeast l1 /\
  forall a b, In a l1 -> In b l2 -> ratedAtLeast a b.
Proof.
  induction l1 as [|x l1 IH]; simpl; intros H.
  - split; [constructor|intros a b []].
  - apply StronglySorted_inv in H. destruct H as [Hrest Hx].
    destruct (IH Hrest) as [Hs Hcross]. split.
    + constructor; [exact Hs|]. apply Forall_app in Hx. tauto.
    + intros a b [<-|Ha] Hb; [|now apply Hcross].
      rewrite Forall_forall in Hx. apply Hx. apply in_or_app. now right.
Qed.

(** X26: GET /products/top returns five products, or all of them when
    there are fewer, sorted by falling rating; together with the products
    left out they are exactly the catalog, and no product left out is
    rated above one that is returned. *)
Theorem getTopProducts_top (catalog : list ProductDoc.t) :
  let top := getTopProducts catalog in
  List.length top = Nat.min 5 (List.length catalog) /\
  StronglySorted ratedAtLeast top /\
  exists rest,
    Permutation catalog (top ++ rest) /\
    forall a b, In a top -> In b rest -> ratedAtLeast a b.
Proof.
  unfold getTopProducts. cbv zeta.
  pose proof (sortByRatings_perm catalog) as Hperm.
  pose proof (sortByRatings_sorted catalog) as Hsorted.
  rewrite <- (firstn_skipn 5 (sortByRatings catalog)) in Hsorted.
  apply StronglySorted_app in Hsorted. destruct Hsorted as [Hs Hcross].
  split; [|split; [exact Hs|]].
  - rewrite length_firstn. now rewrite (Permutation_length Hperm).
  - exists (skipn 5 (sortByRatings catalog)).
    split; [now rewrite firstn_skipn|exact Hcross].
Qed.

(** X27: GET /products/:id/related returns at most five products of the
    catalog, all of the category of the product asked about and none of
    them that product itself. *)
Theorem getRelatedProducts_related (i : ObjectId) (catalog data : list ProductDoc.t) :
  getRelatedProducts i catalog = inr data ->
  (List.length data <= 5)%nat /\
  exists product,
    ProductDoc.findById catalog i = Some product /\
    forall p, In p data ->
      In p catalog /\
      ProductDoc.category p = ProductDoc.category product /\
      ProductDoc._id p <> i.
Proof.
  unfold getRelatedProducts, notFound.
  destruct (ProductDoc.findById catalog i) as [product|]; [|discriminate].
  intros H.
  match type of H with inr ?found = _ => assert (E : data = found) by congruence end.
  subst data. clear H. split.
  - rewrite length_firstn. lia.
  - exists product. split; [reflexivity|].
    intros p Hp.
    assert (Hin : In p (filter
               (fun p => String.eqb (ProductDoc.category p) (ProductDoc.category product)
                         && negb (String.eqb (ProductDoc._id p) i)) catalog)).
    { revert Hp. generalize 5%nat. intros n.
      generalize (filter
               (fun p => String.eqb (ProductDoc.category p) (ProductDoc.category product)
                         && negb (String.eqb (ProductDoc._id p) i)) catalog).
      intros l. revert n. induction l as [|x l IH]; intros [|n]; simpl; try tauto.
      intros [<-|H]; [now left|right; now apply (IH n)]. }
    apply filter_In in Hin. destruct Hin as [Hc Hf].
    apply andb_true_iff in Hf. destruct Hf as [Hcat Hid].
    apply String.eqb_eq in Hcat. apply negb_true_iff, String.eqb_neq in Hid.
    auto.
Qed.

Lemma getRelatedProducts_related_witness :
  let product i category :=
    {| ProductDoc._id := i; ProductDoc.name := "Lamp"; ProductDoc.slug := "lamp";
       ProductDoc.description := "A lamp"; ProductDoc.price := 30;
       ProductDoc.discountPrice := None; ProductDoc.category := category;
       ProductDoc.stock := 4; ProductDoc.ratings := 0%Q;
       ProductDoc.numOfReviews := 0; ProductDoc.images := [];
       ProductDoc.seller := "u1" |} in
  let catalog := [product "p1" "Home"; product "p2" "Books"; product "p3" "Home"] in
  (List.length [product "p3" "Home"] <= 5)%nat /\
  exists asked,
    ProductDoc.findById catalog "p1" = Some asked /\
    forall p, In p [product "p3" "Home"] ->
      In p catalog /\
      ProductDoc.category p = ProductDoc.category asked /\
      ProductDoc._id p <> "p1".
Proof.
  intros product catalog.
  apply (getRelatedProducts_related "p1" catalog [product "p3" "Home"]).
  reflexivity.
Defined.

(** *** Deleting a product *)

Lemma ProductDoc_findById_id (catalog : list ProductDoc.t) (i : ObjectId)
    (p : ProductDoc.t) :
  ProductDoc.findById catalog i = Some p -> ProductDoc._id p = i.
Proof.
  induction catalog as [|x rest IH]; simpl; [discriminate|].
  destruct (String.eqb (ProductDoc._id x) i) eqn:E; [|exact IH].
  intros H. injection H as <-. now apply String.eqb_eq.
Qed.

Lemma ProductDoc_findById_absent (catalog : list ProductDoc.t) (i : ObjectId) :
  ~ In i (map ProductDoc._id catalog) -> ProductDoc.findById catalog i = None.
Proof.
  induction catalog as [|x rest IH]; simpl; intros Hnot; [reflexivity|].
  destruct (String.eqb (ProductDoc._id x) i) eqn:E.
  - apply String.eqb_eq in E. tauto.
  - apply IH. tauto.
Qed.

Lemma ProductDoc_removeById_found (catalog : list ProductDoc.t) (i : ObjectId)
    (p : ProductDoc.t) :
  NoDup (map ProductDoc._id catalog) ->
  ProductDoc.findById catalog i = Some p ->
  ProductDoc.findById (ProductDoc.removeById i catalog) i = None /\
  forall j, j <> i ->
    ProductDoc.findById (ProductDoc.removeById i catalog) j
    = ProductDoc.findById catalog j.
Proof.
  induction catalog as [|x rest IH]; simpl; [discriminate|].
  intros Hunique Hfind. inversion Hunique as [|? ? Hx Hrest]; subst.
  destruct (String.eqb (ProductDoc._id x) i) eqn:E.
  - apply String.eqb_eq in E. subst i. split.
    + now apply ProductDoc_findById_absent.
    + intros j Hj.
      assert (E : String.eqb (ProductDoc._id x) j = false).
      { apply String.eqb_neq. congruence. }
      now rewrite E.
  - destruct (IH Hrest Hfind) as [Hgone Hothers]. simpl. rewrite E. split.
    + exact Hgone.
    + intros j Hj. destruct (String.eqb (ProductDoc._id x) j); auto.
Qed.

Lemma destroyImages_all (destroy : string -> bool) (images : list Image.t) :
  (forall image, In image images -> destroy (Image.public_id image) = true) ->
  destroyImages destroy images = (map Image.public_id images, true).
Proof.
  induction images as [|image rest IH]; intros Hall; simpl; [reflexivity|].
  rewrite (Hall image (or_introl eq_refl)).
  rewrite IH; [reflexivity|]. intros x Hx. apply Hall. now right.
Qed.

Lemma destroyImages_stops (destroy : string -> bool)
    (done rest : list Image.t) (bad : Image.t) :
  (forall image, In image done -> destroy (Image.public_id image) = true) ->
  destroy (Image.public_id bad) = false ->
  destroyImages destroy (done ++ bad :: rest)
  = ((map Image.public_id done ++ [Image.public_id bad])%list, false).
Proof.
  induction done as [|image done IH]; intros Hdone Hbad; simpl.
  - now rewrite Hbad.
  - rewrite (Hdone image (or_introl eq_refl)).
    rewrite IH; [reflexivity| |assumption].
    intros x Hx. apply Hdone. now right.
Qed.

(** X28: when its seller, or an admin, deletes a product and the image
    host accepts every deletion, the answer is 200: every image of the
    product has been destroyed, in order; the product is gone from the
    catalog, ids being unique, and the other products are found as before;
    and the reviews left are exactly those of other products. *)
Theorem deleteProduct_cascades (destroy : string -> bool) (user : User.t)
    (i : ObjectId) (catalog : list ProductDoc.t) (reviews : list Review.t)
    (product : ProductDoc.t) :
  NoDup (map ProductDoc._id catalog) ->
  ProductDoc.findById catalog i = Some product ->
  ProductDoc.seller product = User.id user \/ User.role user = "admin" ->
  (forall image, In image (ProductDoc.images product) ->
     destroy (Image.public_id image) = true) ->
  exists shop,
    deleteProduct destroy user i catalog reviews = (shop, inr tt) /\
    Shop.destroyed shop = map Image.public_id (ProductDoc.images product) /\
    ProductDoc.findById (Shop.catalog shop) i = None /\
    (forall j, j <> i ->
       ProductDoc.findById (Shop.catalog shop) j = ProductDoc.findById catalog j) /\
    (forall r, In r (Shop.reviews shop) <-> In r reviews /\ Review.product r <> i).
Proof.
  intros Hunique Hfind Hallowed Hhost.
  assert (Hok : negb (String.eqb (ProductDoc.seller product) (User.id user))
                && negb (String.eqb (User.role user) "admin") = false).
  { destruct Hallowed as [H|H]; rewrite H, String.eqb_refl; simpl;
      [reflexivity|apply andb_false_r]. }
  unfold deleteProduct. rewrite Hfind, Hok, (destroyImages_all _ _ Hhost).
  rewrite (ProductDoc_findById_id _ _ _ Hfind).
  eexists. split; [reflexivity|]. simpl.
  destruct (ProductDoc_removeById_found catalog i product Hunique Hfind)
    as [Hgone Hothers].
  split; [reflexivity|]. split; [exact Hgone|]. split; [exact Hothers|].
  intros r. rewrite filter_In, negb_true_iff, String.eqb_neq. tauto.
Qed.

Lemma deleteProduct_cascades_witness :
  let lamp :=
    {| ProductDoc._id := "p1"; ProductDoc.name := "Lamp"; ProductDoc.slug := "lamp";
       ProductDoc.description := "A lamp"; ProductDoc.price := 30;
       ProductDoc.discountPrice := None; ProductDoc.category := "Home";
       ProductDoc.stock := 4; ProductDoc.ratings := 0%Q;
       ProductDoc.numOfReviews := 1;
       ProductDoc.images := [{| Image.public_id := "img1"; Image.url := "http://img/1" |}];
       ProductDoc.seller := "u1" |} in
  let reviews := [{| Review._id := "r1"; Review.product := "p1"; Review.rating := 5 |};
                  {| Review._id := "r2"; Review.product := "p2"; Review.rating := 3 |}] in
  exists shop,
    deleteProduct (fun _ => true) Sample.alice "p1" [lamp] reviews = (shop, inr tt) /\
    Shop.destroyed shop = map Image.public_id (ProductDoc.images lamp) /\
    ProductDoc.findById (Shop.catalog shop) "p1" = None /\
    (forall j, j <> "p1" ->
       ProductDoc.findById (Shop.catalog shop) j = ProductDoc.findById [lamp] j) /\
    (forall r, In r (Shop.reviews shop) <-> In r reviews /\ Review.product r <> "p1").
Proof.
  intros lamp reviews.
  apply (deleteProduct_cascades (fun _ => true) Sample.alice "p1" [lamp] reviews lamp).
  - simpl. constructor; [intros []|constructor].
  - reflexivity.
  - left. reflexivity.
  - reflexivity.
Defined.

(** X29: when the image host refuses one of the deletions, the request
    fails and the product and all reviews stay, although the images before
    the refused one have already been destroyed; the images after it are
    not attempted. *)
Theorem deleteProduct_partial (destroy : string -> bool) (user : User.t)
    (i : ObjectId) (catalog : list ProductDoc.t) (reviews : list Review.t)
    (product : ProductDoc.t) (done rest : list Image.t) (bad : Image.t) :
  ProductDoc.findById catalog i = Some product ->
  ProductDoc.seller product = User.id user \/ User.role user = "admin" ->
  ProductDoc.images product = (done ++ bad :: rest)%list ->
  (forall image, In image done -> destroy (Image.public_id image) = true) ->
  destroy (Image.public_id bad) = false ->
  exists e,
    deleteProduct destroy user i catalog reviews
    = ({| Shop.catalog := catalog; Shop.reviews := reviews;
          Shop.destroyed :=
            (map Image.public_id done ++ [Image.public_id bad])%list |},
       inl (Next e)).
Proof.
  intros Hfind Hallowed Himages Hdone Hbad.
  assert (Hok : negb (String.eqb (ProductDoc.seller product) (User.id user))
                && negb (String.eqb (User.role user) "admin") = false).
  { destruct Hallowed as [H|H]; rewrite H, String.eqb_refl; simpl;
      [reflexivity|apply andb_false_r]. }
  unfold deleteProduct.
  rewrite Hfind, Hok, Himages, (destroyImages_stops _ _ _ _ Hdone Hbad).
  eexists. reflexivity.
Qed.

Lemma deleteProduct_partial_witness :
  let first := {| Image.public_id := "img1"; Image.url := "http://img/1" |} in
  let second := {| Image.public_id := "img2"; Image.url := "http://img/2" |} in
  let third := {| Image.public_id := "img3"; Image.url := "http://img/3" |} in
  let lamp :=
    {| ProductDoc._id := "p1"; ProductDoc.name := "Lamp"; ProductDoc.slug := "lamp";
       ProductDoc.description := "A lamp"; ProductDoc.price := 30;
       ProductDoc.discountPrice := None; ProductDoc.category := "Home";
       ProductDoc.stock := 4; ProductDoc.ratings := 0%Q;
       ProductDoc.numOfReviews := 0;
       ProductDoc.images := [first; second; third];
       ProductDoc.seller := "u1" |} in
  exists e,
    deleteProduct (fun id => negb (String.eqb id "img2")) Sample.alice "p1" [lamp] []
    = ({| Shop.catalog := [lamp]; Shop.reviews := [];
          Shop.destroyed :=
            (map Image.public_id [first] ++ [Image.public_id second])%list |},
       inl (Next e)).
Proof.
  intros first second third lamp.
  apply (deleteProduct_partial (fun id => negb (String.eqb id "img2")) Sample.alice
           "p1" [lamp] [] lamp [first] [third] second).
  - reflexivity.
  - left. reflexivity.
  - reflexivity.
  - intros image [<-|[]]. reflexivity.
  - reflexivity.
Defined.

(** X30: a user who is neither the seller of a product nor an admin
    cannot delete it: the answer is 401, no image is destroyed, and the
    catalog and the reviews stay as they were. *)
Theorem deleteProduct_seller_or_admin_only (destroy : string -> bool)
    (user : User.t) (i : ObjectId) (catalog : list ProductDoc.t)
    (reviews : list Review.t) (product : ProductDoc.t) :
  ProductDoc.findById catalog i = Some product ->
  ProductDoc.seller product <> User.id user ->
  User.role user <> "admin" ->
  deleteProduct destroy user i catalog reviews
  = ({| Shop.catalog := catalog; Shop.reviews := reviews; Shop.destroyed := [] |},
     inl (Next (ErrorResponse
                  ("User " ++ User.id user ++ " is not authorized to delete this product")
                  401))).
Proof.
  intros Hfind Hother Hrole. apply String.eqb_neq in Hother, Hrole.
  unfold deleteProduct. now rewrite Hfind, Hother, Hrole.
Qed.

Lemma deleteProduct_seller_or_admin_only_witness :
  let lamp :=
    {| ProductDoc._id := "p1"; ProductDoc.name := "Lamp"; ProductDoc.slug := "lamp";
       ProductDoc.description := "A lamp"; ProductDoc.price := 30;
       ProductDoc.discountPrice := None; ProductDoc.category := "Home";
       ProductDoc.stock := 4; ProductDoc.ratings := 0%Q;
       ProductDoc.numOfReviews := 0; ProductDoc.images := [];
       ProductDoc.seller := "u2" |} in
  deleteProduct (fun _ => true) Sample.alice "p1" [lamp] []
  = ({| Shop.catalog := [lamp]; Shop.reviews := []; Shop.destroyed := [] |},
     inl (Next (ErrorResponse
                  ("User " ++ User.id Sample.alice
                   ++ " is not authorized to delete this product") 401))).
Proof.
  intros lamp.
  apply (deleteProduct_seller_or_admin_only (fun _ => true) Sample.alice "p1"
           [lamp] [] lamp).
  - reflexivity.
  - simpl. discriminate.
  - simpl. discriminate.
Defined.
